(** * E-commerce store backend: cart, coupons, checkout, analytics, token refresh

    A shallow embedding of the Express controllers of the store backend and
    the properties of its specification.

    Modelling conventions, used throughout:
    - a Mongoose collection is the list of its documents in natural
      (insertion) order; [findOne] is the first match, [save] of a new
      document appends.  The document store and the cache are in-memory
      values here, so their operations are total; only the payment gateway,
      a remote service called in the middle of a handler, is an oracle that
      may throw (result [None]), which the handlers' [catch] turns into a
      500 response;
    - a handler takes the part of the request it reads and the state it
      touches, and returns the response together with the new state; it
      runs to completion before the next request is served;
    - JavaScript numbers that are integers in every use of the code
      (quantities, amounts in cents, millisecond timestamps, percentages)
      are [Z]; prices and currency amounts in units are [Q]; the quantity
      a request asks for, which the handler stores unvalidated, is also
      modelled as any number ([CartJson]);
    - the clock ([Date.now()]), the random source and the time zone of the
      process are explicit inputs. *)

From Stdlib Require Import ZArith QArith Qround List String Ascii Lia Bool.
From stdpp Require Import base tactics option list strings gmap.
From Equations Require Import Equations.
Import ListNotations.

Local Open Scope string_scope.
Local Open Scope list_scope.
Local Open Scope Z_scope.

(** ** JavaScript helpers *)
Module JS.

(** [Math.round]: the nearest integer, halves towards [+Infinity].  The
    argument is the exact rational; the rounding error of the floating-point
    product that precedes it in the source is not represented. *)
Definition Math_round (x : Q) : Z := Qfloor (x + (1 # 2))%Q.

(** [Math.round(n / 100)] for an integer numerator [n]. *)
Definition Math_round_div100 (n : Z) : Z := Math_round (inject_Z n / 100)%Q.

(** Truthiness of an optional string: [undefined] and [""] are falsy. *)
Definition truthy (s : option string) : bool :=
  match s with
  | None => false
  | Some s => negb (String.eqb s "")
  end.

(** [c.toUpperCase()] on one ASCII character. *)
Definition upper_ascii (c : ascii) : ascii :=
  let n := nat_of_ascii c in
  if (Nat.leb 97 n && Nat.leb n 122)%bool then ascii_of_nat (n - 32) else c.

Fixpoint toUpperCase (s : string) : string :=
  match s with
  | EmptyString => EmptyString
  | String c s' => String (upper_ascii c) (toUpperCase s')
  end.

(** [s.substring(i, j)] for [i <= j]: the characters at the indices
    [i .. j-1] that exist. *)
Definition substring (i j : nat) (s : string) : string :=
  String.substring i (j - i) s.

End JS.

(** ** Cart controller (cart.controller.js) and the cart lines of the user
    schema *)
Module Cart.

(** A cart line of [userSchema.cartItems].  [user.cartItems.push(productId)]
    casts the pushed id to a subdocument whose [_id] is that id, with the
    schema default [quantity: 1]; [item.id] is that [_id] as a string. *)
Record CartItem := { id : string; quantity : Z }.

Inductive Body :=
| Items (cartItems : list CartItem)
| Message (message : string).

Record Response := { status : Z; json : Body }.

(** The schema default of [quantity]. *)
Definition default_quantity : Z := 1.

(** [item => item.id === productId] *)
Definition has_id (productId : string) (item : CartItem) : bool :=
  String.eqb (id item) productId.

(** [item => item.id !== productId] *)
Definition not_id (productId : string) (item : CartItem) : bool :=
  negb (has_id productId item).

(** Assignment to [existingItem.quantity], where [existingItem] is the
    object [find] returned: the first matching element of the array
    itself, which is therefore updated in place. *)
Fixpoint update_existing (productId : string) (f : Z -> Z)
    (cartItems : list CartItem) : list CartItem :=
  match cartItems with
  | [] => []
  | item :: rest =>
      if has_id productId item
      then {| id := id item; quantity := f (quantity item) |} :: rest
      else item :: update_existing productId f rest
  end.

Definition addToCart (productId : string) (cartItems : list CartItem)
  : Response * list CartItem :=
  let cartItems' :=
    match find (has_id productId) cartItems with
    | Some existingItem =>
        update_existing productId (fun q => q + 1) cartItems
    | None =>
        cartItems ++ [{| id := productId; quantity := default_quantity |}]
    end in
  ({| status := 200; json := Items cartItems' |}, cartItems').

Definition removeAllFromCart (productId : option string)
    (cartItems : list CartItem) : Response * list CartItem :=
  let cartItems' :=
    if negb (JS.truthy productId) then []
    else List.filter (not_id (default "" productId)) cartItems in
  ({| status := 200; json := Items cartItems' |}, cartItems').

Definition updateQuantity (productId : string) (quantity : Z)
    (cartItems : list CartItem) : Response * list CartItem :=
  match find (has_id productId) cartItems with
  | Some existingItem =>
      if quantity =? 0 then
        let cartItems' := List.filter (not_id productId) cartItems in
        ({| status := 200; json := Items cartItems' |}, cartItems')
      else
        let cartItems' :=
          update_existing productId (fun _ => quantity) cartItems in
        ({| status := 200; json := Items cartItems' |}, cartItems')
  | None =>
      ({| status := 404; json := Message "Product not found in cart" |},
       cartItems)
  end.

(** The cart operations of the specification and their handlers. *)
Inductive CartOp :=
| Add (productId : string)
| SetQuantity (productId : string) (quantity : Z)
| Clear (productId : option string).

Definition apply_op (op : CartOp) (cartItems : list CartItem)
  : list CartItem :=
  match op with
  | Add p => snd (addToCart p cartItems)
  | SetQuantity p q => snd (updateQuantity p q cartItems)
  | Clear p => snd (removeAllFromCart p cartItems)
  end.

Definition run (ops : list CartOp) (cartItems : list CartItem)
  : list CartItem :=
  fold_left (fun c op => apply_op op c) ops cartItems.

End Cart.

(** ** The cart handlers on any JSON number

    [quantity] comes from the request body and is stored as it is: the
    handler tests it against zero only, and the schema gives the field the
    type Number with no minimum and no integer constraint.  Here the
    quantity is any JSON number, as a rational, with exact arithmetic.
    Bodies whose [quantity] is not a number are outside this model.  The
    handlers are those of [Cart], which is their restriction to integer
    quantities. *)
Module CartJson.

Record CartItem := { id : string; quantity : Q }.

Inductive Body :=
| Items (cartItems : list CartItem)
| Message (message : string).

Record Response := { status : Z; json : Body }.

(** The schema default of [quantity]. *)
Definition default_quantity : Q := 1.

(** [item => item.id === productId] *)
Definition has_id (productId : string) (item : CartItem) : bool :=
  String.eqb (id item) productId.

(** [item => item.id !== productId] *)
Definition not_id (productId : string) (item : CartItem) : bool :=
  negb (has_id productId item).

(** Assignment to [existingItem.quantity]: the first matching element of
    the array is updated in place. *)
Fixpoint update_existing (productId : string) (f : Q -> Q)
    (cartItems : list CartItem) : list CartItem :=
  match cartItems with
  | [] => []
  | item :: rest =>
      if has_id productId item
      then {| id := id item; quantity := f (quantity item) |} :: rest
      else item :: update_existing productId f rest
  end.

Definition addToCart (productId : string) (cartItems : list CartItem)
  : Response * list CartItem :=
  let cartItems' :=
    match find (has_id productId) cartItems with
    | Some existingItem =>
        update_existing productId (fun q => q + 1)%Q cartItems
    | None =>
        cartItems ++ [{| id := productId; quantity := default_quantity |}]
    end in
  ({| status := 200; json := Items cartItems' |}, cartItems').

Definition removeAllFromCart (productId : option string)
    (cartItems : list CartItem) : Response * list CartItem :=
  let cartItems' :=
    if negb (JS.truthy productId) then []
    else List.filter (not_id (default "" productId)) cartItems in
  ({| status := 200; json := Items cartItems' |}, cartItems').

(** [quantity === 0] is the only test made on the quantity. *)
Definition updateQuantity (productId : string) (quantity : Q)
    (cartItems : list CartItem) : Response * list CartItem :=
  match find (has_id productId) cartItems with
  | Some existingItem =>
      if Qeq_bool quantity 0 then
        let cartItems' := List.filter (not_id productId) cartItems in
        ({| status := 200; json := Items cartItems' |}, cartItems')
      else
        let cartItems' :=
          update_existing productId (fun _ => quantity) cartItems in
        ({| status := 200; json := Items cartItems' |}, cartItems')
  | None =>
      ({| status := 404; json := Message "Product not found in cart" |},
       cartItems)
  end.

(** The cart operations of the specification and their handlers. *)
Inductive CartOp :=
| Add (productId : string)
| SetQuantity (productId : string) (quantity : Q)
| Clear (productId : option string).

Definition apply_op (op : CartOp) (cartItems : list CartItem)
  : list CartItem :=
  match op with
  | Add p => snd (addToCart p cartItems)
  | SetQuantity p q => snd (updateQuantity p q cartItems)
  | Clear p => snd (removeAllFromCart p cartItems)
  end.

Definition run (ops : list CartOp) (cartItems : list CartItem)
  : list CartItem :=
  fold_left (fun c op => apply_op op c) ops cartItems.

(** Every line has a quantity of at least one. *)
Definition positive_lines (cartItems : list CartItem) : Prop :=
  Forall (fun item => (1 <= quantity item)%Q) cartItems.

(** The operations of the specification whose quantity argument is not
    zero. *)
Definition nonzero_op (op : CartOp) : Prop :=
  match op with
  | SetQuantity _ q => ~ (q == 0)%Q
  | _ => True
  end.

(** The operations whose quantity argument is zero or at least one. *)
Definition zero_or_positive_op (op : CartOp) : Prop :=
  match op with
  | SetQuantity _ q => (q == 0)%Q \/ (1 <= q)%Q
  | _ => True
  end.

(** A cart of integer quantities as a cart of numbers. *)
Definition of_item (item : Cart.CartItem) : CartItem :=
  {| id := Cart.id item; quantity := inject_Z (Cart.quantity item) |}.

Definition of_cart (cartItems : list Cart.CartItem) : list CartItem :=
  map of_item cartItems.

(** A cart with two lines. *)
Definition two_lines : list CartItem :=
  [{| id := "p0"; quantity := 3 |}; {| id := "p1"; quantity := 4 |}].

End CartJson.

(** ** Coupon documents and the coupon controller (coupon.controller.js) *)
Module Coupons.

(** A coupon document, with the fields the controllers read and write. *)
Record Coupon := {
  code : string;
  discountPercentage : Z;
  expirationDate : Z;
  isActive : bool;
  userId : string
}.

(** Modelled from the spec: the coupon schema (coupon.model.js) is not
    among the sources.  The award step does not set [isActive]; the
    specification has a coupon active from its creation until it is
    "deactivated when redeemed at checkout", so the schema default of the
    flag is [true].  Uniqueness indexes the schema may declare are not
    modelled: [save] always succeeds. *)
Definition isActive_default : bool := true.

(** The query [{ userId }]. *)
Definition of_user (uid : string) (c : Coupon) : bool :=
  String.eqb (userId c) uid.

(** The query [{ userId, isActive: true }]. *)
Definition active_of_user (uid : string) (c : Coupon) : bool :=
  of_user uid c && isActive c.

(** The query [{ code, userId }]. *)
Definition code_of_user (couponCode uid : string) (c : Coupon) : bool :=
  String.eqb (code c) couponCode && of_user uid c.

(** The query [{ code, userId, isActive: true }]. *)
Definition active_code_of_user (couponCode uid : string) (c : Coupon)
  : bool :=
  String.eqb (code c) couponCode && of_user uid c && isActive c.

Definition findOne (query : Coupon -> bool) (coupons : list Coupon)
  : option Coupon :=
  find query coupons.

(** Removes the first document matching the query, if any. *)
Fixpoint findOneAndDelete (query : Coupon -> bool) (coupons : list Coupon)
  : list Coupon :=
  match coupons with
  | [] => []
  | c :: rest =>
      if query c then rest else c :: findOneAndDelete query rest
  end.

(** Applies the update to the first document matching the query, if any. *)
Fixpoint findOneAndUpdate (query : Coupon -> bool)
    (update : Coupon -> Coupon) (coupons : list Coupon) : list Coupon :=
  match coupons with
  | [] => []
  | c :: rest =>
      if query c then update c :: rest
      else c :: findOneAndUpdate query update rest
  end.

(** The update [{ isActive: false }]. *)
Definition deactivate (c : Coupon) : Coupon :=
  {| code := code c;
     discountPercentage := discountPercentage c;
     expirationDate := expirationDate c;
     isActive := false;
     userId := userId c |}.

Inductive Body :=
| CouponJson (coupon : option Coupon)
| Valid (message code : string) (discountPercentage : Z)
| Message (message : string).

Record Response := { status : Z; json : Body }.

Definition getCoupon (uid : string) (coupons : list Coupon) : Response :=
  let coupon := findOne (active_of_user uid) coupons in
  {| status := 200; json := CouponJson coupon |}.

Definition validateCoupon (couponCode uid : string) (now : Z)
    (coupons : list Coupon) : Response :=
  match findOne (active_code_of_user couponCode uid) coupons with
  | None => {| status := 404; json := Message "Coupon not found" |}
  | Some coupon =>
      if expirationDate coupon <? now
      then {| status := 400; json := Message "Coupon expired" |}
      else {| status := 200;
              json := Valid "Coupon valid" (code coupon)
                        (discountPercentage coupon) |}
  end.

(** The coupon is not expired at the time [now]: its expiration date is
    not in the past. *)
Definition unexpired (now : Z) (c : Coupon) : Prop :=
  now <= expirationDate c.

(** The active coupons of a user. *)
Definition active_coupons (uid : string) (coupons : list Coupon)
  : list Coupon :=
  List.filter (active_of_user uid) coupons.

(** All coupons of a user, active or not. *)
Definition coupons_of (uid : string) (coupons : list Coupon)
  : list Coupon :=
  List.filter (of_user uid) coupons.

(** Every user has at most one coupon document, active or not. *)
Definition one_coupon_per_user (coupons : list Coupon) : Prop :=
  forall uid, (length (coupons_of uid coupons) <= 1)%nat.


End Coupons.

(** ** Order documents (order.model.js) *)
Module Orders.

Record OrderLine := { product : string; quantity : Z; price : Q }.

(** An order document; [createdAt] is the timestamp Mongoose adds. *)
Record Order := {
  user : string;
  products : list OrderLine;
  totalAmount : Q;
  stripeSessionId : string;
  createdAt : Z
}.

(** The schema validators run by [save]: [quantity] has [min: 1], [price]
    and [totalAmount] have [min: 0]. *)
Definition valid_line (l : OrderLine) : bool :=
  (1 <=? quantity l) && Qle_bool 0 (price l).

Definition validate (o : Order) : bool :=
  forallb valid_line (products o) && Qle_bool 0 (totalAmount o).

(** The unique index on [stripeSessionId]. *)
Definition session_is_new (sessionId : string) (orders : list Order)
  : bool :=
  forallb (fun o => negb (String.eqb (stripeSessionId o) sessionId)) orders.

(** [newOrder.save()]: the collection with the order added, or [None]
    when validation or the unique index rejects it. *)
Definition save (o : Order) (orders : list Order) : option (list Order) :=
  if validate o && session_is_new (stripeSessionId o) orders
  then Some (orders ++ [o])
  else None.

End Orders.

(** ** Payment controller (payment.controller.js) *)
Module Payment.
Import Coupons Orders.

(** An element of [req.body.products]. *)
Record Product := {
  _id : string;
  name : string;
  image : string;
  price : Q;
  quantity : Z
}.

Record LineItem := {
  product_name : string;
  product_images : list string;
  unit_amount : Z;
  line_quantity : Z
}.

(** An element of the product list serialised into the session metadata. *)
Record MetaProduct := { mp_id : string; mp_quantity : Z; mp_price : Q }.

Record Metadata := {
  md_userId : string;
  md_couponCode : string;
  md_products : list MetaProduct
}.

Record SessionParams := {
  line_items : list LineItem;
  discounts : list string;
  metadata : Metadata
}.

(** A checkout session as [stripe.checkout.sessions.retrieve] returns it. *)
Record Session := {
  payment_status : string;
  session_metadata : Metadata;
  amount_total : Z
}.

(** The payment gateway.  A call that throws returns [None];
    [coupons_create] and [sessions_create] return the id of the object
    created. *)
Record Stripe := {
  coupons_create : Z -> option string;
  sessions_create : SessionParams -> option string;
  sessions_retrieve : string -> option Session
}.

(** The two collections the controller works on. *)
Record Db := { coupons : list Coupon; orders : list Order }.

Inductive Body :=
| SessionJson (id : string) (totalAmount : Q)
| OrderJson (success : bool) (message orderId : string)
| Message (message : string)
| ServerError.

Record Response := { status : Z; json : Body }.

(** [Math.round(product.price * 100)] *)
Definition amount (p : Product) : Z := JS.Math_round (price p * 100)%Q.

(** One step of the [products.map] callback: the line item built... *)
Definition lineItem (p : Product) : LineItem :=
  {| product_name := name p;
     product_images := [image p];
     unit_amount := amount p;
     line_quantity := if quantity p =? 0 then 1 else quantity p |}.

(** ... and its side effect [totalAmount += amount * product.quantity]. *)
Definition add_line (totalAmount : Z) (p : Product) : Z :=
  totalAmount + amount p * quantity p.

(** The value of [totalAmount] after the [map]: the pre-discount total. *)
Definition pre_discount_total (products : list Product) : Z :=
  fold_left add_line products 0.

(** The coupon the code resolves to: looked up only for a truthy code. *)
Definition lookup_coupon (couponCode : option string) (uid : string)
    (coupons : list Coupon) : option Coupon :=
  if JS.truthy couponCode
  then findOne (active_code_of_user (default "" couponCode) uid) coupons
  else None.

(** [totalAmount] after the coupon block. *)
Definition apply_coupon (totalAmount : Z) (coupon : option Coupon) : Z :=
  match coupon with
  | Some c => JS.Math_round_div100 (totalAmount * discountPercentage c)
  | None => totalAmount
  end.

(** The total the handler ends with: it is compared with the award
    threshold and returned to the client. *)
Definition final_total (products : list Product)
    (coupon : option Coupon) : Z :=
  apply_coupon (pre_discount_total products) coupon.

Definition createStripeCoupon (stripe : Stripe) (discountPercentage : Z)
  : option string :=
  coupons_create stripe discountPercentage.

Definition session_metadata_of (uid : string) (couponCode : option string)
    (products : list Product) : Metadata :=
  {| md_userId := uid;
     md_couponCode := if JS.truthy couponCode then default "" couponCode
                      else "";
     md_products :=
       map (fun p => {| mp_id := _id p;
                        mp_quantity := quantity p;
                        mp_price := price p |}) products |}.

Definition gift_prefix : string := "GIFT".

Definition thirty_days : Z := 30 * 24 * 60 * 60 * 1000.

Definition award_threshold : Z := 20000.

(** The suffix of a new code, from [random36], the string
    [Math.random().toString(36)]. *)
Definition random_suffix (random36 : string) : string :=
  JS.toUpperCase (JS.substring 2 8 random36).

Definition createNewCoupon (uid : string) (now : Z) (random36 : string)
    (coupons : list Coupon) : Coupon * list Coupon :=
  let coupons := findOneAndDelete (of_user uid) coupons in
  let newCoupon :=
    {| code := String.append gift_prefix (random_suffix random36);
       discountPercentage := 10;
       expirationDate := now + thirty_days;
       isActive := isActive_default;
       userId := uid |} in
  (newCoupon, coupons ++ [newCoupon]).

(** The award step on the database: [await createNewCoupon(req.user._id)]. *)
Definition award (uid : string) (now : Z) (random36 : string) (db : Db)
  : Db :=
  {| coupons := snd (createNewCoupon uid now random36 (coupons db));
     orders := orders db |}.

Definition server_error : Response :=
  {| status := 500; json := ServerError |}.

Definition createCheckoutSession (stripe : Stripe) (now : Z)
    (random36 : string) (uid : string) (products : list Product)
    (couponCode : option string) (db : Db) : Response * Db :=
  match products with
  | [] =>
      ({| status := 400; json := Message "Invalid or empty products array" |},
       db)
  | _ :: _ =>
      let lineItems := map lineItem products in
      let totalAmount := pre_discount_total products in
      let coupon := lookup_coupon couponCode uid (coupons db) in
      let totalAmount := apply_coupon totalAmount coupon in
      let discounts :=
        match coupon with
        | Some c =>
            match createStripeCoupon stripe (discountPercentage c) with
            | Some id => Some [id]
            | None => None
            end
        | None => Some []
        end in
      match discounts with
      | None => (server_error, db)
      | Some discounts =>
          match sessions_create stripe
                  {| line_items := lineItems;
                     discounts := discounts;
                     metadata :=
                       session_metadata_of uid couponCode products |} with
          | None => (server_error, db)
          | Some session_id =>
              let db' :=
                if award_threshold <=? totalAmount
                then award uid now random36 db
                else db in
              ({| status := 200;
                  json := SessionJson session_id
                            (inject_Z totalAmount / 100)%Q |},
               db')
          end
      end
  end.

(** [checkoutSuccess]; [orderId] is the id generated for the new order.
    A session that is not paid gets no response at all ([None]). *)
Definition checkoutSuccess (stripe : Stripe) (now : Z) (orderId : string)
    (sessionId : string) (db : Db) : option Response * Db :=
  match sessions_retrieve stripe sessionId with
  | None => (Some server_error, db)
  | Some session =>
      if String.eqb (payment_status session) "paid" then
        let md := session_metadata session in
        let coupons' :=
          if JS.truthy (Some (md_couponCode md))
          then findOneAndUpdate
                 (code_of_user (md_couponCode md) (md_userId md))
                 deactivate (coupons db)
          else coupons db in
        let newOrder :=
          {| user := md_userId md;
             products :=
               map (fun p => {| Orders.product := mp_id p;
                                Orders.quantity := mp_quantity p;
                                Orders.price := mp_price p |})
                   (md_products md);
             totalAmount := (inject_Z (amount_total session) / 100)%Q;
             stripeSessionId := sessionId;
             createdAt := now |} in
        match save newOrder (orders db) with
        | None =>
            (Some server_error, {| coupons := coupons'; orders := orders db |})
        | Some orders' =>
            (Some {| status := 200;
                     json := OrderJson true
                       "Payment succesfully, order created successfully and coupon deactivated if used"
                       orderId |},
             {| coupons := coupons'; orders := orders' |})
        end
      else (None, db)
  end.

(** The states the two handlers that write to the database can produce
    from the empty database. *)
Inductive reachable : Db -> Prop :=
| reachable_empty : reachable {| coupons := []; orders := [] |}
| reachable_checkout stripe now random36 uid products couponCode db :
    reachable db ->
    reachable
      (snd (createCheckoutSession stripe now random36 uid products
              couponCode db))
| reachable_success stripe now orderId sessionId db :
    reachable db ->
    reachable (snd (checkoutSuccess stripe now orderId sessionId db)).

End Payment.

(** ** Analytics controller (analytics.controller.js)

    Dates are millisecond timestamps.  [setDate(getDate() + 1)] steps one
    calendar day in the local time of the process, so the time zone is a
    parameter of the loop.  A day key, the
    string [YYYY-MM-DD] that both [toISOString().slice(0, 10)] and
    [$dateToString] with format ["%Y-%m-%d"] produce, is represented by the
    number of the UTC day, of which the string is an order-preserving
    injective rendering. *)
Module Analytics.
Import Orders.

Definition day_ms : Z := 24 * 60 * 60 * 1000.

(** The UTC calendar day of a timestamp. *)
Definition utc_day (t : Z) : Z := t / day_ms.

(** The time of day of a timestamp, in milliseconds after midnight UTC. *)
Definition time_of_day (t : Z) : Z := t mod day_ms.

(** A document produced by the [$group] stage. *)
Record DayGroup := { _id : Z; sales : Z; revenue : Q }.

(** An element of the series returned. *)
Record Entry := { date : Z; entry_sales : Z; entry_revenue : Q }.

(** The [$match] stage: [createdAt] between the two dates, inclusive. *)
Definition in_range (startDate endDate : Z) (o : Order) : bool :=
  (startDate <=? createdAt o) && (createdAt o <=? endDate).

(** The [$group] stage, one order at a time: the group of the order's day
    counts it and adds its amount; a day seen for the first time gets a
    new group. *)
Fixpoint group_add (o : Order) (groups : list DayGroup) : list DayGroup :=
  match groups with
  | [] =>
      [{| _id := utc_day (createdAt o);
          sales := 1;
          revenue := totalAmount o |}]
  | g :: rest =>
      if _id g =? utc_day (createdAt o)
      then {| _id := _id g;
              sales := sales g + 1;
              revenue := (revenue g + totalAmount o)%Q |} :: rest
      else g :: group_add o rest
  end.

Definition group (orders : list Order) : list DayGroup :=
  fold_left (fun groups o => group_add o groups) orders [].

(** The [$sort] stage, ascending in [_id]. *)
Fixpoint sort_insert (g : DayGroup) (groups : list DayGroup)
  : list DayGroup :=
  match groups with
  | [] => [g]
  | h :: rest =>
      if _id g <=? _id h then g :: h :: rest
      else h :: sort_insert g rest
  end.

Definition sort (groups : list DayGroup) : list DayGroup :=
  fold_right sort_insert [] groups.

Definition aggregate (startDate endDate : Z) (orders : list Order)
  : list DayGroup :=
  sort (group (List.filter (in_range startDate endDate) orders)).

Definition half_day : Z := 12 * 60 * 60 * 1000.

(** [d.setDate(d.getDate() + 1)] on the instant [t]: the local time of [t],
    one day later on the local calendar, read back as an instant.
    [to_local] is the offset of local time from UTC at a UTC instant,
    [from_local] the offset that applies to a local time. *)
Definition next_local_day (to_local from_local : Z -> Z) (t : Z) : Z :=
  let local := t + to_local t + day_ms in
  local - from_local local.

(** The time zone of the process: the two offsets, in milliseconds, and the
    fact that a step of one local day moves the instant forward by at least
    half a day (the clock changes of a zone are of a few hours). *)
Record TimeZone := {
  to_local : Z -> Z;
  from_local : Z -> Z;
  advances : forall t, t + half_day <= next_local_day to_local from_local t
}.

Definition setDate_next (tz : TimeZone) (t : Z) : Z :=
  next_local_day (to_local tz) (from_local tz) t.

(** The helper's loop; [currentDate] starts as [startDate] (the same
    [Date] object, which the loop advances in place after the
    aggregation has read it). *)
Equations? getDatesInRange (tz : TimeZone) (currentDate endDate : Z) : list Z
  by wf (Z.to_nat ((endDate - currentDate) / half_day + 1)) lt :=
  getDatesInRange tz currentDate endDate
    with Z_le_dec currentDate endDate => {
    | left _ =>
        utc_day currentDate
        :: getDatesInRange tz (setDate_next tz currentDate) endDate
    | right _ => [] }.
Proof.
  pose proof (advances tz currentDate) as Hadv.
  fold (setDate_next tz currentDate) in Hadv.
  assert (Hh : 0 < half_day) by (unfold half_day; lia).
  assert (H0 : 0 <= (endDate - currentDate) / half_day)
    by (apply Z.div_pos; lia).
  assert (Hle : (endDate - setDate_next tz currentDate) / half_day
                <= (endDate - currentDate + (-1) * half_day) / half_day)
    by (apply Z.div_le_mono; lia).
  rewrite Z.div_add in Hle by lia. lia.
Qed.

(** A zone without clock changes: local time is UTC plus a fixed offset. *)
Definition fixed_offset (tz : TimeZone) : Prop :=
  exists k, forall t, to_local tz t = k /\ from_local tz t = k.

(** UTC itself. *)
Definition utc : TimeZone.
Proof.
  refine {| to_local := fun _ => 0; from_local := fun _ => 0 |}.
  intros t. unfold next_local_day, half_day, day_ms. lia.
Defined.

(** [foundData?.sales || 0] *)
Definition sales_or_zero (foundData : option DayGroup) : Z :=
  match foundData with
  | Some data => if sales data =? 0 then 0 else sales data
  | None => 0
  end.

(** [foundData?.revenue || 0] *)
Definition revenue_or_zero (foundData : option DayGroup) : Q :=
  match foundData with
  | Some data => if Qeq_bool (revenue data) 0 then 0%Q else revenue data
  | None => 0%Q
  end.

Definition getDailySalesData (tz : TimeZone) (startDate endDate : Z)
    (orders : list Order) : list Entry :=
  let dailySalesData := aggregate startDate endDate orders in
  let dateArray := getDatesInRange tz startDate endDate in
  map (fun date =>
         let foundData :=
           find (fun data => _id data =? date) dailySalesData in
         {| date := date;
            entry_sales := sales_or_zero foundData;
            entry_revenue := revenue_or_zero foundData |})
      dateArray.

(** The consecutive days [first], [first + 1], ... ([count] of them). *)
Definition days_from (first : Z) (count : nat) : list Z :=
  map (fun k => first + Z.of_nat k) (seq 0 count).

(** The calendar days of the inclusive range from the day of [startDate]
    to the day of [endDate], in ascending order. *)
Definition calendar_days (startDate endDate : Z) : list Z :=
  days_from (utc_day startDate)
    (Z.to_nat (utc_day endDate - utc_day startDate + 1)).

(** The orders the series counts on a day: those matched by the range
    whose creation date falls on that day. *)
Definition matching_orders (startDate endDate day : Z)
    (orders : list Order) : list Order :=
  List.filter (fun o => in_range startDate endDate o
                        && (utc_day (createdAt o) =? day)) orders.

End Analytics.

(** ** Session tokens (auth.controller.js) and the refresh-token cache *)
Module Auth.

(** The JWT library: [sign] a payload holding a user id with a secret and a
    lifetime in seconds at a given time; [verify] returns the user id of a
    token that is validly signed with the secret and unexpired, and [None]
    where the library throws. *)
Record Jwt := {
  sign : string -> string -> Z -> Z -> string;
  verify : string -> string -> Z -> option string
}.

(** The process environment. *)
Record Env := {
  ACCESS_TOKEN_SECRET : string;
  REFRESH_TOKEN_SECRET : string;
  NODE_ENV : string
}.

(** A cache entry: the value and the time (ms) at which the key expires. *)
Record CacheEntry := { value : string; expires_at : Z }.

Abbreviation Redis := (gmap string CacheEntry).

(** Handlers read and write the cache: a state monad over it. *)
Definition M (A : Type) : Type := Redis -> A * Redis.

Definition ret {A} (a : A) : M A := fun redis => (a, redis).

Definition bind {A B} (m : M A) (f : A -> M B) : M B :=
  fun redis => let (a, redis') := m redis in f a redis'.

Notation "'do' x <- m ; k" := (bind m (fun x => k))
  (at level 10, x name, m at level 100, k at level 200).

(** [redis.get(key)] at the time [now]: [null] for a missing or expired
    key. *)
Definition redis_get (key : string) (now : Z) : M (option string) :=
  fun redis =>
    (match redis !! key with
     | Some e => if now <? expires_at e then Some (value e) else None
     | None => None
     end, redis).

(** [redis.set(key, v, "EX", seconds)] at the time [now]. *)
Definition redis_set (key v : string) (seconds now : Z) : M unit :=
  fun redis =>
    (tt, <[key := {| value := v; expires_at := now + seconds * 1000 |}]> redis).

Definition refresh_token_key (userId : string) : string :=
  String.append "refresh_token:" userId.

Record Cookie := {
  cookie_name : string;
  cookie_value : string;
  httpOnly : bool;
  secure : bool;
  sameSite : string;
  maxAge : Z
}.

Inductive Body :=
| Message (message : string)
| ServerError.

Record Response := {
  status : Z;
  set_cookies : list Cookie;
  json : Body
}.

Section Handlers.
Context (jwt : Jwt) (env : Env).

Definition generateToken (userId : string) (now : Z) : string * string :=
  let accessToken := sign jwt userId (ACCESS_TOKEN_SECRET env) (15 * 60) now in
  let refreshToken :=
    sign jwt userId (REFRESH_TOKEN_SECRET env) (7 * 24 * 60 * 60) now in
  (accessToken, refreshToken).

Definition storeRefreshToken (userId refreshToken : string) (now : Z)
  : M unit :=
  redis_set (refresh_token_key userId) refreshToken (7 * 24 * 60 * 60) now.

Definition access_cookie (accessToken : string) : Cookie :=
  {| cookie_name := "accessToken";
     cookie_value := accessToken;
     httpOnly := true;
     secure := String.eqb (NODE_ENV env) "production";
     sameSite := "strict";
     maxAge := 15 * 60 * 1000 |}.

Definition refreshToken (now : Z) (cookie : option string) : M Response :=
  if negb (JS.truthy cookie) then
    ret {| status := 401; set_cookies := [];
           json := Message "No refresh token found" |}
  else
    let refreshToken := default "" cookie in
    match verify jwt refreshToken (REFRESH_TOKEN_SECRET env) now with
    | None => ret {| status := 500; set_cookies := []; json := ServerError |}
    | Some userId =>
        do storedToken <- redis_get (refresh_token_key userId) now;
        if negb (bool_decide (Some refreshToken = storedToken)) then
          ret {| status := 401; set_cookies := [];
                 json := Message "Invalid refresh token" |}
        else
          let accessToken :=
            sign jwt userId (ACCESS_TOKEN_SECRET env) (15 * 60) now in
          ret {| status := 200;
                 set_cookies := [access_cookie accessToken];
                 json := Message "Token refreshed successfully" |}
    end.

End Handlers.

(** What the cache holds for a user's refresh token: the value and its
    expiry. *)
Definition stored_refresh_token (userId : string) (redis : Redis)
  : option CacheEntry :=
  redis !! refresh_token_key userId.

End Auth.

(** ** Concrete data for the runs in the proofs *)
Module Fixtures.
Import Coupons Orders Payment Auth.

(** A gateway that accepts every call, for the concrete runs below. *)
Definition test_stripe : Stripe :=
  {| coupons_create := fun _ => Some "co_1";
     sessions_create := fun _ => Some "cs_1";
     sessions_retrieve := fun _ => None |}.

(** A user's active 10% coupon. *)
Definition gift10 : Coupon :=
  {| code := "GIFTK3J9QZ";
     discountPercentage := 10;
     expirationDate := 2592000000;
     isActive := true;
     userId := "u1" |}.

Definition product_at (p : Q) (q : Z) : Product :=
  {| _id := "p1"; name := "Jacket"; image := "jacket.png";
     price := p; quantity := q |}.

(** A database with one awarded coupon: a first checkout of 250.00. *)
Definition after_first_checkout : Db :=
  snd (createCheckoutSession test_stripe 1000 "0.k3j9qzx1" "u1"
         [product_at 250 1] None
         {| coupons := []; orders := [] |}).

(** An order placed at 00:30 on the third day. *)
Definition late_order : Order :=
  {| user := "u1";
     products := [{| Orders.product := "p1"; Orders.quantity := 1;
                    Orders.price := 50 |}];
     totalAmount := 50;
     stripeSessionId := "cs_1";
     createdAt := 174600000 |}.

(** Two orders on day 1 and none on the other days of a week. *)
Definition week_orders : list Order :=
  [{| user := "u1";
      products := [{| Orders.product := "p1"; Orders.quantity := 2;
                    Orders.price := 10 |}];
      totalAmount := 20;
      stripeSessionId := "cs_1";
      createdAt := 90000000 |};
   {| user := "u2";
      products := [{| Orders.product := "p2"; Orders.quantity := 1;
                    Orders.price := 5 |}];
      totalAmount := 5;
      stripeSessionId := "cs_2";
      createdAt := 100000000 |}].

(** The zone America/New_York around its clock change of 10 March 2024 at
    07:00 UTC (02:00 local): five hours behind UTC before it, four hours
    after.  A local time the change skips is read with the offset before
    it.  The change back in November is not represented. *)
Definition eastern_2024 : Analytics.TimeZone.
Proof.
  refine {| Analytics.to_local := fun t =>
              if t <? 1710054000000 then -18000000 else -14400000;
            Analytics.from_local := fun l =>
              if l <? 1710039600000 then -18000000 else -14400000 |}.
  intros t. unfold Analytics.next_local_day, Analytics.half_day,
    Analytics.day_ms.
  cbv beta zeta. destruct (t <? 1710054000000); destruct (_ <? 1710039600000);
    lia.
Defined.

(** An order placed on 10 March 2024 at 12:00 UTC. *)
Definition march_order : Orders.Order :=
  {| Orders.user := "u1";
     Orders.products := [{| Orders.product := "p1"; Orders.quantity := 1;
                            Orders.price := 50 |}];
     Orders.totalAmount := 50;
     Orders.stripeSessionId := "cs_4";
     Orders.createdAt := 1710072000000 |}.

(** A stand-in for the JWT library in concrete runs: a token is the user id
    and the secret, separated by a dot; only the refresh token of user [u1]
    is recognised, for seven days from time 0. *)
Definition toy_jwt : Jwt :=
  {| sign := fun userId secret seconds now =>
       String.append userId (String.append "." secret);
     verify := fun token secret now =>
       if String.eqb token "u1.refresh-secret"
          && String.eqb secret "refresh-secret"
          && (now <? 7 * 24 * 60 * 60 * 1000)
       then Some "u1" else None |}.

Definition toy_env : Env :=
  {| ACCESS_TOKEN_SECRET := "access-secret";
     REFRESH_TOKEN_SECRET := "refresh-secret";
     NODE_ENV := "production" |}.

End Fixtures.

(** ** User documents (user.model.js) *)
Module Users.

(** A user document.  [password] holds the stored hash; it is [None] in a
    document read with the projection [-password].  E-mails are taken in the
    normalised form (trimmed, lower case) in which the schema stores them. *)
Record User := {
  _id : string;
  name : string;
  email : string;
  password : option string;
  cartItems : list Cart.CartItem;
  role : string
}.

(** [User.findOne({ email })] *)
Definition findOne_email (e : string) (users : list User) : option User :=
  find (fun u => String.eqb (email u) e) users.

(** [User.findById(id)] *)
Definition findById (id : string) (users : list User) : option User :=
  find (fun u => String.eqb (_id u) id) users.

(** [.select("-password")] *)
Definition without_password (u : User) : User :=
  {| _id := _id u;
     name := name u;
     email := email u;
     password := None;
     cartItems := cartItems u;
     role := role u |}.

End Users.

(** ** Login and logout (auth.controller.js) *)
Module Session.
Import Auth.

(** [bcrypt.compare(password, hash)] *)
Record Bcrypt := { compare : string -> string -> bool }.


Record UserJson := {
  user_id : string;
  user_name : string;
  user_email : string;
  user_role : string
}.

Inductive Body :=
| UserMessage (user : UserJson) (message : string)
| Message (message : string)
| ServerError.

Record Response := {
  status : Z;
  set_cookies : list Cookie;
  cleared_cookies : list string;
  json : Body
}.

Section Handlers.
Context (bcrypt : Bcrypt) (jwt : Jwt) (env : Env).

Definition refresh_cookie (refreshToken : string) : Cookie :=
  {| cookie_name := "refreshToken";
     cookie_value := refreshToken;
     httpOnly := true;
     secure := String.eqb (NODE_ENV env) "production";
     sameSite := "strict";
     maxAge := 7 * 24 * 60 * 60 * 1000 |}.

Definition setCookies (accessToken refreshToken : string) : list Cookie :=
  [access_cookie env accessToken; refresh_cookie refreshToken].

Definition invalid_credentials : Response :=
  {| status := 401; set_cookies := []; cleared_cookies := [];
     json := Message "Invalid email or password" |}.

Definition server_error : Response :=
  {| status := 500; set_cookies := []; cleared_cookies := [];
     json := ServerError |}.

Definition login (now : Z) (email password : string)
    (users : list Users.User) : M Response :=
  match Users.findOne_email email users with
  | Some user =>
      match Users.password user with
      | None => ret server_error
      | Some hash =>
          if compare bcrypt password hash then
            let (accessToken, refreshToken) :=
              generateToken jwt env (Users._id user) now in
            do _ <- storeRefreshToken (Users._id user) refreshToken now;
            ret {| status := 200;
                   set_cookies := setCookies accessToken refreshToken;
                   cleared_cookies := [];
                   json := UserMessage
                             {| user_id := Users._id user;
                                user_name := Users.name user;
                                user_email := Users.email user;
                                user_role := Users.role user |}
                             "Login successful" |}
          else ret invalid_credentials
      end
  | None => ret invalid_credentials
  end.



End Handlers.

End Session.

(** ** Route protection (auth.middleware.js) *)
Module Gate.
Import Auth Users.

(** The [name] of the error [jwt.verify] throws for a token it rejects. *)
Record JwtErrors := { error_name : string -> string -> Z -> string }.

(** A middleware either calls [next()], with the user it attached to the
    request, or answers itself. *)
Inductive Outcome :=
| Next (user : User)
| Reject (status : Z) (message : string).

Definition protectRoute (jwt : Jwt) (errors : JwtErrors) (env : Env)
    (now : Z) (cookie : option string) (users : list User) : Outcome :=
  if negb (JS.truthy cookie) then
    Reject 401 "Unauthorized - No access token provided"
  else
    let accessToken := default "" cookie in
    match verify jwt accessToken (ACCESS_TOKEN_SECRET env) now with
    | Some userId =>
        match findById userId users with
        | None => Reject 401 "Unauthorized - User not found"
        | Some user => Next (without_password user)
        end
    | None =>
        if String.eqb
             (error_name errors accessToken (ACCESS_TOKEN_SECRET env) now)
             "TokenExpiredError"
        then Reject 401 "Unauthorized - Access token expired"
        else Reject 401 "Unauthorized - Invalid access token"
    end.

(** [adminRoute]; the argument is [req.user]. *)
Definition adminRoute (user : option User) : Outcome :=
  match user with
  | Some u =>
      if String.eqb (role u) "admin" then Next u
      else Reject 401 "Access denied - Admin only"
  | None => Reject 401 "Access denied - Admin only"
  end.

(** The chain [protectRoute, adminRoute] of the routes for administrators. *)
Definition admin_chain (jwt : Jwt) (errors : JwtErrors) (env : Env)
    (now : Z) (cookie : option string) (users : list User) : Outcome :=
  match protectRoute jwt errors env now cookie users with
  | Next user => adminRoute (Some user)
  | Reject status message => Reject status message
  end.

End Gate.

(** ** Product controller (product.controller.js) *)
Module Catalog.

(** A product document, with the fields the controllers read and write. *)
Record Product := {
  _id : string;
  name : string;
  description : string;
  price : Q;
  image : string;
  category : string;
  isFeatured : bool
}.

(** The products collection and the cache entry [featured_products].  The
    entry holds the JSON text of a list of products, represented here by the
    list itself; it has no expiry. *)
Record State := {
  products : list Product;
  featured_cache : option (list Product)
}.

Inductive Body :=
| ProductsJson (products : list Product)
| ProductJson (product : Product)
| Message (message : string)
| ServerError.

Record Response := { status : Z; json : Body }.

Definition has_id (id : string) (p : Product) : bool :=
  String.eqb (_id p) id.

(** [Product.findById(id)] *)
Definition findById (id : string) (products : list Product)
  : option Product :=
  find (has_id id) products.

(** [Product.find({ isFeatured: true })]; the result is an array, so the
    handler's branch for a missing result is never taken. *)
Definition featured (products : list Product) : list Product :=
  List.filter isFeatured products.

Definition getFeaturedProducts (st : State) : Response * State :=
  match featured_cache st with
  | Some cached => ({| status := 200; json := ProductsJson cached |}, st)
  | None =>
      let featuredProducts := featured (products st) in
      ({| status := 200; json := ProductsJson featuredProducts |},
       {| products := products st;
          featured_cache := Some featuredProducts |})
  end.

(** [Product.find({ category })] *)
Definition getProductsByCategory (c : string) (st : State) : Response :=
  {| status := 200;
     json := ProductsJson
               (List.filter (fun p => String.eqb (category p) c)
                  (products st)) |}.

Definition updateFeaturedProductsCache (st : State) : State :=
  {| products := products st;
     featured_cache := Some (featured (products st)) |}.

Definition toggle (p : Product) : Product :=
  {| _id := _id p;
     name := name p;
     description := description p;
     price := price p;
     image := image p;
     category := category p;
     isFeatured := negb (isFeatured p) |}.

(** [product.save()] of the document [findById] returned: the first
    document with that id is replaced. *)
Fixpoint save_first (id : string) (f : Product -> Product)
    (products : list Product) : list Product :=
  match products with
  | [] => []
  | p :: rest =>
      if has_id id p then f p :: rest else p :: save_first id f rest
  end.

Definition toggleFeaturedProduct (id : string) (st : State)
  : Response * State :=
  match findById id (products st) with
  | Some product =>
      let updatedProduct := toggle product in
      let st' :=
        updateFeaturedProductsCache
          {| products := save_first id toggle (products st);
             featured_cache := featured_cache st |} in
      ({| status := 200; json := ProductJson updatedProduct |}, st')
  | None => ({| status := 404; json := Message "Product not found" |}, st)
  end.

(** [s.split(c)] for a one-character separator. *)
Fixpoint split (c : ascii) (s : string) : list string :=
  match s with
  | EmptyString => [EmptyString]
  | String a s' =>
      if Ascii.eqb a c then EmptyString :: split c s'
      else match split c s' with
           | h :: t => String a h :: t
           | [] => [String a EmptyString]
           end
  end.

(** [product.image.split("/").pop().split(".")[0]] *)
Definition publicId (image : string) : string :=
  hd EmptyString (split "." (List.last (split "/" image) EmptyString)).

(** The character occurs in the string. *)
Fixpoint contains (c : ascii) (s : string) : bool :=
  match s with
  | EmptyString => false
  | String a s' => Ascii.eqb a c || contains c s'
  end.

(** [Product.findByIdAndDelete(id)] *)
Fixpoint findByIdAndDelete (id : string) (products : list Product)
  : list Product :=
  match products with
  | [] => []
  | p :: rest =>
      if has_id id p then rest else p :: findByIdAndDelete id rest
  end.

(** [deleteProduct]; the second component lists the images the handler
    asks the image store to destroy.  Whether that call throws changes
    nothing but what is logged. *)
Definition deleteProduct (id : string) (st : State)
  : Response * list string * State :=
  match findById id (products st) with
  | None => ({| status := 404; json := Message "Product not found" |}, [], st)
  | Some product =>
      let destroyed :=
        if negb (String.eqb (image product) "")
        then [String.append "products/" (publicId (image product))]
        else [] in
      ({| status := 200; json := Message "Product deleted successfully" |},
       destroyed,
       {| products := findByIdAndDelete id (products st);
          featured_cache := featured_cache st |})
  end.

End Catalog.

(** ** The cart joined with the catalog (cart.controller.js) *)
Module CartView.
Import Cart.

(** A product of the catalog with the quantity of its cart line. *)
Record CartProduct := { product : Catalog.Product; quantity : Z }.

Inductive Body :=
| CartJson (cartItems : list CartProduct)
| ServerError.

Record Response := { status : Z; json : Body }.

(** [{ _id: { $in: req.user.cartItems } }]: the cart lines are cast to
    their ids. *)
Definition in_cart (cartItems : list CartItem) (p : Catalog.Product) : bool :=
  existsb (has_id (Catalog._id p)) cartItems.

(** The [map] callback; reading [item.quantity] of an [item] that [find]
    did not return throws. *)
Definition with_quantity (cartItems : list CartItem) (p : Catalog.Product)
  : option CartProduct :=
  match find (has_id (Catalog._id p)) cartItems with
  | Some item => Some {| product := p; quantity := Cart.quantity item |}
  | None => None
  end.

Fixpoint map_throwing {A B} (f : A -> option B) (l : list A)
  : option (list B) :=
  match l with
  | [] => Some []
  | a :: rest =>
      match f a with
      | None => None
      | Some b =>
          match map_throwing f rest with
          | None => None
          | Some bs => Some (b :: bs)
          end
      end
  end.

Definition getCartProducts (cartItems : list CartItem)
    (catalog : list Catalog.Product) : Response :=
  let products := List.filter (in_cart cartItems) catalog in
  match map_throwing (with_quantity cartItems) products with
  | Some cartItems' => {| status := 200; json := CartJson cartItems' |}
  | None => {| status := 500; json := ServerError |}
  end.

(** The quantity a cart holds of a product: that of its line, or zero. *)
Definition quantity_of (productId : string) (cartItems : list CartItem) : Z :=
  match find (has_id productId) cartItems with
  | Some item => Cart.quantity item
  | None => 0
  end.

End CartView.

(** ** The analytics summary and route (analytics.controller.js,
    analytics.route.js) *)
Module Summary.
Import Orders Analytics.

Record AnalyticsData := {
  users : Z;
  products : Z;
  totalSales : Z;
  totalRevenue : Q
}.

(** The single group of the [$group] stage with [_id: null]; no document
    when the collection is empty. *)
Definition salesData (orders : list Order) : list (Z * Q) :=
  match orders with
  | [] => []
  | _ :: _ =>
      [(Z.of_nat (length orders),
        fold_left (fun sum o => (sum + totalAmount o)%Q) orders 0%Q)]
  end.

Definition getAnalyticsData (totalUsers totalProducts : Z)
    (orders : list Order) : AnalyticsData :=
  let (totalSales, totalRevenue) := hd (0, 0%Q) (salesData orders) in
  {| users := totalUsers;
     products := totalProducts;
     totalSales := totalSales;
     totalRevenue := totalRevenue |}.

Inductive Body :=
| AnalyticsJson (analyticsData : AnalyticsData) (dailySalesData : list Entry)
| Message (message : string).

Record Response := { status : Z; json : Body }.

Definition seven_days : Z := 7 * 24 * 60 * 60 * 1000.

(** The handler of [GET /analytics] behind [protectRoute, adminRoute];
    [now] is the time of [new Date()], [tz] the time zone of the process. *)
Definition analytics_route (tz : TimeZone) (gate : Gate.Outcome) (now : Z)
    (totalUsers totalProducts : Z) (orders : list Order) : Response :=
  match gate with
  | Gate.Reject status message => {| status := status; json := Message message |}
  | Gate.Next _ =>
      let analyticsData := getAnalyticsData totalUsers totalProducts orders in
      let endDate := now in
      let startDate := endDate - seven_days in
      let dailySalesData := getDailySalesData tz startDate endDate orders in
      {| status := 200; json := AnalyticsJson analyticsData dailySalesData |}
  end.

(** The sum of the amounts of a list of orders, in the order of the list. *)
Definition revenue_of (orders : list Order) : Q :=
  fold_left (fun sum o => (sum + totalAmount o)%Q) orders 0%Q.

End Summary.

(** ** Reading the daily series *)
Module SeriesSpec.
Import Orders Analytics.

(** [dailySalesData.find(data => data._id === date)] *)
Definition lookup_day (day : Z) (groups : list DayGroup) : option DayGroup :=
  find (fun data => _id data =? day) groups.

(** What one more order does to the group of a given day. *)
Definition day_step (day : Z) (g : option DayGroup) (o : Order)
  : option DayGroup :=
  if utc_day (createdAt o) =? day then
    Some match g with
         | Some g => {| _id := _id g;
                        sales := sales g + 1;
                        revenue := (revenue g + totalAmount o)%Q |}
         | None => {| _id := utc_day (createdAt o);
                      sales := 1;
                      revenue := totalAmount o |}
         end
  else g.

(** The order was created on the day. *)
Definition on_day (day : Z) (o : Order) : bool :=
  utc_day (createdAt o) =? day.

(** The order was created on one of the days. *)
Definition listed (days : list Z) (o : Order) : bool :=
  existsb (fun d => utc_day (createdAt o) =? d) days.

(** The sales of all entries of a series. *)
Definition series_sales (series : list Entry) : Z :=
  fold_left (fun t e => t + entry_sales e) series 0.

(** The orders created between two dates, inclusive. *)
Definition orders_between (startDate endDate : Z) (orders : list Order)
  : list Order :=
  List.filter (in_range startDate endDate) orders.

End SeriesSpec.

(** ** The featured-products carousel (FeaturedProducts.jsx) *)
Module Carousel.

Record State := { currentIndex : Z; itemsPerPage : Z }.

Definition initial : State := {| currentIndex := 0; itemsPerPage := 4 |}.

Definition handleResize (innerWidth : Z) (s : State) : State :=
  {| currentIndex := currentIndex s;
     itemsPerPage :=
       if innerWidth <? 640 then 1
       else if innerWidth <? 1024 then 2
       else if innerWidth <? 1280 then 3
       else 4 |}.

Definition nextSlide (s : State) : State :=
  {| currentIndex := currentIndex s + itemsPerPage s;
     itemsPerPage := itemsPerPage s |}.

Definition prevSlide (s : State) : State :=
  {| currentIndex := currentIndex s - itemsPerPage s;
     itemsPerPage := itemsPerPage s |}.

Definition isStartDisabled (s : State) : bool := currentIndex s =? 0.

(** [length] is [featuredProducts.length]. *)
Definition isEndDisabled (length : Z) (s : State) : bool :=
  length - itemsPerPage s <=? currentIndex s.

(** What the user can do; a click on a disabled button does nothing. *)
Inductive Event :=
| ClickNext
| ClickPrev
| Resize (innerWidth : Z).

Definition handle (length : Z) (s : State) (e : Event) : State :=
  match e with
  | ClickNext => if isEndDisabled length s then s else nextSlide s
  | ClickPrev => if isStartDisabled s then s else prevSlide s
  | Resize w => handleResize w s
  end.

Definition is_click (e : Event) : Prop :=
  match e with
  | Resize _ => False
  | _ => True
  end.

End Carousel.

(** ** What the gateway session charges (payment.controller.js) *)
Module CheckoutTotals.
Import Payment.

(** The amount of the line items of a session, before discounts: the
    gateway multiplies each unit amount by the line's quantity. *)
Definition gateway_total (items : list LineItem) : Z :=
  fold_left (fun t item => t + unit_amount item * line_quantity item) items 0.

(** The unit amounts of the products whose quantity is zero. *)
Definition zero_quantity_amount (products : list Product) : Z :=
  fold_left (fun t p => if quantity p =? 0 then t + amount p else t)
    products 0.

(** The order lines a list of requested products stands for. *)
Definition order_lines (products : list Product) : list Orders.OrderLine :=
  map (fun p => {| Orders.product := _id p;
                   Orders.quantity := quantity p;
                   Orders.price := price p |}) products.

End CheckoutTotals.

(** ** More concrete data for the runs in the proofs *)
Module Fixtures2.
Import Coupons Orders Payment.

(** A paid session for two jackets at 10.00, bought by [u1] with the coupon
    of [Fixtures.gift10]; the gateway charged 1800. *)
Definition paid_session : Session :=
  {| payment_status := "paid";
     session_metadata :=
       session_metadata_of "u1" (Some "GIFTK3J9QZ")
         [Fixtures.product_at 10 2];
     amount_total := 1800 |}.

(** A gateway that holds [paid_session] under the id [cs_9]. *)
Definition paid_stripe : Stripe :=
  {| coupons_create := fun _ => Some "co_1";
     sessions_create := fun _ => Some "cs_9";
     sessions_retrieve := fun id =>
       if String.eqb id "cs_9" then Some paid_session else None |}.

(** A paid session whose only line has quantity zero, and a gateway that
    returns it for every id. *)
Definition zero_session : Session :=
  {| payment_status := "paid";
     session_metadata :=
       session_metadata_of "u1" None [Fixtures.product_at 10 0];
     amount_total := 1000 |}.

Definition zero_stripe : Stripe :=
  {| coupons_create := fun _ => None;
     sessions_create := fun _ => None;
     sessions_retrieve := fun _ => Some zero_session |}.

(** The database after [u1]'s first checkout of 250.00: one awarded
    coupon, no orders. *)
Definition db1 : Db := Fixtures.after_first_checkout.

(** A catalog of two products, the first featured. *)
Definition jacket : Catalog.Product :=
  {| Catalog._id := "p1"; Catalog.name := "Jacket";
     Catalog.description := "A jacket";
     Catalog.price := 100;
     Catalog.image := "https://res.cloudinary.com/demo/image/upload/v1/products/abc123.png";
     Catalog.category := "jackets"; Catalog.isFeatured := true |}.

Definition jeans : Catalog.Product :=
  {| Catalog._id := "p2"; Catalog.name := "Jeans";
     Catalog.description := "A pair of jeans";
     Catalog.price := 60;
     Catalog.image := "";
     Catalog.category := "jeans"; Catalog.isFeatured := false |}.

Definition cold_catalog : Catalog.State :=
  {| Catalog.products := [jacket; jeans]; Catalog.featured_cache := None |}.

(** Two users: an administrator and a customer. *)
Definition admin_user : Users.User :=
  {| Users._id := "u0"; Users.name := "Ada"; Users.email := "ada@shop.test";
     Users.password := Some "hash:secret0";
     Users.cartItems := []; Users.role := "admin" |}.

Definition customer_user : Users.User :=
  {| Users._id := "u1"; Users.name := "Bob"; Users.email := "bob@shop.test";
     Users.password := Some "hash:secret1";
     Users.cartItems := []; Users.role := "customer" |}.

(** A stand-in for bcrypt: the hash of a password is the password after the
    prefix [hash:]. *)
Definition toy_bcrypt : Session.Bcrypt :=
  {| Session.compare := fun password hash =>
       String.eqb hash (String.append "hash:" password) |}.


Definition two_users : list Users.User := [admin_user; customer_user].

End Fixtures2.

(** * Properties *)

(** ** The cart *)
Module CartProps.
Import Cart.

Lemma has_id_same p q : has_id p {| id := p; quantity := q |} = true.
Proof. unfold has_id; simpl. apply String.eqb_refl. Qed.

Lemma find_app_none p (c : list CartItem) x :
  find (has_id p) c = None ->
  find (has_id p) (c ++ [x]) = find (has_id p) [x].
Proof.
  induction c as [|i c IH]; simpl; [reflexivity|].
  destruct (has_id p i); [discriminate|exact IH].
Qed.

Lemma filter_none p (c : list CartItem) :
  find (has_id p) c = None -> List.filter (has_id p) c = [].
Proof.
  induction c as [|i c IH]; simpl; [reflexivity|].
  destruct (has_id p i); [discriminate|exact IH].
Qed.

Lemma update_existing_app p f (c : list CartItem) q :
  find (has_id p) c = None ->
  update_existing p f (c ++ [{| id := p; quantity := q |}])
  = c ++ [{| id := p; quantity := f q |}].
Proof.
  induction c as [|i c IH]; simpl.
  - intros _. rewrite has_id_same. reflexivity.
  - destruct (has_id p i); [discriminate|]. intros H. now rewrite IH.
Qed.

Lemma find_filter_not_id p (c : list CartItem) :
  find (has_id p) (List.filter (not_id p) c) = None.
Proof.
  induction c as [|i c IH]; simpl; [reflexivity|].
  unfold not_id at 1. destruct (has_id p i) eqn:E; simpl; [exact IH|].
  now rewrite E.
Qed.

(** C6: from a cart with no line for [p], adding [p] twice gives a cart
    whose line for [p] (the only one) has quantity exactly 2; and from a
    cart with a line for [p], [setQuantity(p, 0)] answers 200 with a cart
    that has no line for [p]. *)
Theorem add_twice_and_set_zero :
  forall (c : list CartItem) (p : string),
    (find (has_id p) c = None ->
     let c2 := snd (addToCart p (snd (addToCart p c))) in
     find (has_id p) c2 = Some {| id := p; quantity := 2 |}
     /\ List.filter (has_id p) c2 = [{| id := p; quantity := 2 |}])
    /\ (find (has_id p) c <> None ->
        let (r, c') := updateQuantity p 0 c in
        status r = 200 /\ json r = Items c'
        /\ find (has_id p) c' = None).
Proof.
  intros c p. split.
  - intros Hnone. cbv zeta. unfold addToCart at 2. simpl. rewrite Hnone.
    unfold addToCart. simpl.
    rewrite (find_app_none _ _ _ Hnone). simpl. rewrite has_id_same.
    unfold default_quantity.
    rewrite (update_existing_app _ _ _ _ Hnone). simpl.
    split.
    + rewrite (find_app_none _ _ _ Hnone). simpl. now rewrite has_id_same.
    + rewrite List.filter_app, (filter_none _ _ Hnone). simpl.
      now rewrite has_id_same.
  - intros Hsome. unfold updateQuantity.
    destruct (find (has_id p) c) eqn:E; [|congruence]. simpl.
    repeat split. apply find_filter_not_id.
Qed.

Lemma add_twice_and_set_zero_witness :
  (let c2 := snd (addToCart "p1"
                    (snd (addToCart "p1" [{| id := "p0"; quantity := 3 |}]))) in
   find (has_id "p1") c2 = Some {| id := "p1"; quantity := 2 |}
   /\ List.filter (has_id "p1") c2 = [{| id := "p1"; quantity := 2 |}])
  /\ (let (r, c') :=
        updateQuantity "p1" 0
          [{| id := "p0"; quantity := 3 |}; {| id := "p1"; quantity := 4 |}] in
      status r = 200 /\ json r = Items c'
      /\ find (has_id "p1") c' = None).
Proof.
  split.
  - apply (proj1 (add_twice_and_set_zero
                    [{| id := "p0"; quantity := 3 |}] "p1")).
    reflexivity.
  - apply (proj2 (add_twice_and_set_zero
                    [{| id := "p0"; quantity := 3 |};
                     {| id := "p1"; quantity := 4 |}] "p1")).
    simpl. discriminate.
Defined.

(** C10: when the cart has no line for [p], [updateQuantity(p, q)] answers
    404 with the message "Product not found in cart" and leaves the cart
    as it was. *)
Theorem update_missing_not_found :
  forall (c : list CartItem) (p : string) (q : Z),
    find (has_id p) c = None ->
    updateQuantity p q c
    = ({| status := 404; json := Message "Product not found in cart" |}, c).
Proof.
  intros c p q Hnone. unfold updateQuantity. now rewrite Hnone.
Qed.

Lemma update_missing_not_found_witness :
  find (has_id "p9") [{| id := "p0"; quantity := 3 |}] = None
  /\ updateQuantity "p9" 7 [{| id := "p0"; quantity := 3 |}]
     = ({| status := 404; json := Message "Product not found in cart" |},
        [{| id := "p0"; quantity := 3 |}]).
Proof.
  split; [reflexivity|].
  apply (update_missing_not_found [{| id := "p0"; quantity := 3 |}] "p9" 7).
  reflexivity.
Defined.

End CartProps.

(** ** The quantities a cart can hold *)
Module CartJsonProps.
Import CartJson.

Lemma find_after_filter p (c : list CartItem) :
  find (has_id p) (List.filter (not_id p) c) = None.
Proof.
  induction c as [|i c IH]; simpl; [reflexivity|].
  unfold not_id at 1. destruct (has_id p i) eqn:E; simpl; [exact IH|].
  now rewrite E.
Qed.

Lemma find_update_existing p f (c : list CartItem) item :
  find (has_id p) c = Some item ->
  find (has_id p) (update_existing p f c)
  = Some {| id := id item; quantity := f (quantity item) |}.
Proof.
  induction c as [|i c IH]; simpl; [discriminate|].
  destruct (has_id p i) eqn:E.
  - intros [= <-]. simpl. unfold has_id in *. simpl. now rewrite E.
  - intros H. simpl. rewrite E. now apply IH.
Qed.

Lemma positive_filter f (c : list CartItem) :
  positive_lines c -> positive_lines (List.filter f c).
Proof.
  unfold positive_lines. rewrite !List.Forall_forall.
  intros H x Hx. apply List.filter_In in Hx. apply H, Hx.
Qed.

Lemma positive_update p f (c : list CartItem) :
  (forall q, (1 <= q)%Q -> (1 <= f q)%Q) ->
  positive_lines c -> positive_lines (update_existing p f c).
Proof.
  intros Hf. unfold positive_lines.
  induction c as [|i c IH]; simpl; intros H; [constructor|].
  inversion H as [|? ? Hi Hc]; subst.
  destruct (has_id p i).
  - constructor; [simpl; now apply Hf|exact Hc].
  - constructor; [exact Hi|now apply IH].
Qed.

Lemma positive_apply_op op (c : list CartItem) :
  zero_or_positive_op op -> positive_lines c ->
  positive_lines (apply_op op c).
Proof.
  intros Hop Hc. destruct op as [p|p q|p]; simpl.
  - unfold addToCart; simpl. destruct (find (has_id p) c).
    + apply positive_update; [|exact Hc].
      intros q Hq. apply Qle_trans with (1 := Hq).
      rewrite <- (Qplus_0_r q) at 1. apply Qplus_le_r. discriminate.
    + apply List.Forall_app. split; [exact Hc|].
      constructor; [simpl; apply Qle_refl|constructor].
  - unfold updateQuantity. destruct (find (has_id p) c); [|exact Hc].
    destruct (Qeq_bool q 0) eqn:E; simpl.
    + now apply positive_filter.
    + apply positive_update; [|exact Hc].
      simpl in Hop. destruct Hop as [H0|H1]; [|intros; exact H1].
      apply Qeq_bool_iff in H0. congruence.
  - unfold removeAllFromCart; simpl.
    destruct (negb (JS.truthy p)); [constructor|now apply positive_filter].
Qed.

Lemma positive_run ops : forall c : list CartItem,
  Forall zero_or_positive_op ops -> positive_lines c ->
  positive_lines (run ops c).
Proof.
  unfold run. induction ops as [|op ops IH]; simpl; intros c Hops Hc.
  - exact Hc.
  - inversion Hops; subst. apply IH; [assumption|].
    now apply positive_apply_op.
Qed.

(** On integer quantities the handlers are those of [Cart]. *)
Lemma update_existing_of_cart p (f : Z -> Z) (g : Q -> Q) c :
  (forall q, g (inject_Z q) = inject_Z (f q)) ->
  of_cart (Cart.update_existing p f c) = update_existing p g (of_cart c).
Proof.
  intros Hfg. induction c as [|i c IH]; simpl; [reflexivity|].
  unfold has_id, Cart.has_id. simpl.
  destruct (String.eqb (Cart.id i) p); simpl.
  - unfold of_item at 1. simpl. now rewrite Hfg.
  - now rewrite IH.
Qed.

Lemma find_of_cart p c :
  find (has_id p) (of_cart c) = option_map of_item (find (Cart.has_id p) c).
Proof.
  induction c as [|i c IH]; simpl; [reflexivity|].
  unfold has_id, Cart.has_id. simpl.
  destruct (String.eqb (Cart.id i) p); [reflexivity|exact IH].
Qed.

Lemma filter_of_cart p c :
  List.filter (not_id p) (of_cart c)
  = of_cart (List.filter (Cart.not_id p) c).
Proof.
  induction c as [|i c IH]; simpl; [reflexivity|].
  rewrite IH. unfold not_id, Cart.not_id, has_id, Cart.has_id. simpl.
  destruct (String.eqb (Cart.id i) p); reflexivity.
Qed.

Lemma updateQuantity_of_cart p (q : Z) c :
  snd (updateQuantity p (inject_Z q) (of_cart c))
  = of_cart (snd (Cart.updateQuantity p q c)).
Proof.
  unfold updateQuantity, Cart.updateQuantity. rewrite find_of_cart.
  destruct (find (Cart.has_id p) c); simpl; [|reflexivity].
  assert (E : Qeq_bool (inject_Z q) 0 = (q =? 0)).
  { unfold Qeq_bool, inject_Z. simpl. rewrite Z.mul_1_r.
    destruct (q =? 0) eqn:Hq.
    - apply Z.eqb_eq in Hq. subst. reflexivity.
    - apply Z.eqb_neq in Hq. destruct q; [congruence|reflexivity..]. }
  rewrite E. destruct (q =? 0); simpl.
  - apply filter_of_cart.
  - symmetry. now apply update_existing_of_cart.
Qed.

Lemma addToCart_of_cart p c :
  snd (addToCart p (of_cart c)) = of_cart (snd (Cart.addToCart p c)).
Proof.
  unfold addToCart, Cart.addToCart. simpl. rewrite find_of_cart.
  destruct (find (Cart.has_id p) c); simpl.
  - symmetry. apply update_existing_of_cart.
    intros q. unfold inject_Z, Qplus. simpl. f_equal. lia.
  - unfold of_cart. now rewrite List.map_app.
Qed.

(** C3, as the claim states it, fails: a sequence of [add] and [setQuantity]
    with a nonzero quantity can leave a line whose quantity is below one,
    because [updateQuantity] stores any quantity other than zero as it is:
    after [add(p1)], [setQuantity(p1, -1)] stores -1 and
    [setQuantity(p1, 1/2)] stores 1/2. *)
Lemma quantity_below_one_stored :
  ~ (forall ops (c : list CartItem),
       positive_lines c -> Forall nonzero_op ops -> positive_lines (run ops c))
  /\ run [Add "p1"; SetQuantity "p1" (-1)] []
     = [{| id := "p1"; quantity := -1 |}]
  /\ run [Add "p1"; SetQuantity "p1" (1 # 2)] []
     = [{| id := "p1"; quantity := 1 # 2 |}].
Proof.
  split; [|split; reflexivity].
  intros H.
  specialize (H [Add "p1"; SetQuantity "p1" (-1)] []).
  assert (Hc : positive_lines []) by constructor.
  assert (Hops : Forall nonzero_op [Add "p1"; SetQuantity "p1" (-1)]).
  { repeat constructor. simpl. discriminate. }
  specialize (H Hc Hops). vm_compute in H.
  inversion H as [|? ? Hq _]; subst. apply Hq. reflexivity.
Qed.

(** C3, amended: for every sequence of cart operations ([add],
    [setQuantity] with a number that is zero or at least one, [clear])
    applied to a cart whose lines have quantity >= 1, every line afterwards
    has quantity >= 1; [setQuantity(p, 0)] leaves no line for [p] instead
    of storing zero; and [setQuantity(p, q)] with any other number [q], on
    a cart with a line for [p], stores [q] on that line as it is, whatever
    its sign or size. *)
Theorem cart_lines_stay_positive :
  forall ops (c : list CartItem),
    positive_lines c ->
    Forall zero_or_positive_op ops ->
    positive_lines (run ops c)
    /\ (forall p, find (has_id p) (snd (updateQuantity p 0 c)) = None)
    /\ (forall p q item,
          ~ (q == 0)%Q ->
          find (has_id p) c = Some item ->
          find (has_id p) (snd (updateQuantity p q c))
          = Some {| id := id item; quantity := q |}).
Proof.
  intros ops c Hc Hops. split; [|split].
  - now apply positive_run.
  - intros p. unfold updateQuantity.
    destruct (find (has_id p) c) eqn:E; simpl.
    + apply find_after_filter.
    + exact E.
  - intros p q item Hq Hfind. unfold updateQuantity. rewrite Hfind.
    destruct (Qeq_bool q 0) eqn:E;
      [apply Qeq_bool_iff in E; contradiction|].
    simpl. now apply find_update_existing.
Qed.

Lemma cart_lines_stay_positive_witness :
  positive_lines two_lines
  /\ Forall zero_or_positive_op
       [Add "p1"; SetQuantity "p1" 5; Add "p2"; SetQuantity "p2" 0;
        SetQuantity "p0" (7 # 2); Clear (Some "p3")]
  /\ positive_lines
       (run [Add "p1"; SetQuantity "p1" 5; Add "p2"; SetQuantity "p2" 0;
             SetQuantity "p0" (7 # 2); Clear (Some "p3")] two_lines)
  /\ (forall p, find (has_id p) (snd (updateQuantity p 0 two_lines)) = None)
  /\ (forall p q item,
        ~ (q == 0)%Q ->
        find (has_id p) two_lines = Some item ->
        find (has_id p) (snd (updateQuantity p q two_lines))
        = Some {| id := id item; quantity := q |}).
Proof.
  assert (Hc : positive_lines two_lines)
    by (repeat constructor; simpl; discriminate).
  assert (Hops : Forall zero_or_positive_op
                   [Add "p1"; SetQuantity "p1" 5; Add "p2";
                    SetQuantity "p2" 0; SetQuantity "p0" (7 # 2);
                    Clear (Some "p3")]).
  { constructor; [exact I|].
    constructor; [right; discriminate|].
    constructor; [exact I|].
    constructor; [left; reflexivity|].
    constructor; [right; discriminate|].
    constructor; [exact I|constructor]. }
  split; [exact Hc|]. split; [exact Hops|].
  apply (cart_lines_stay_positive
           [Add "p1"; SetQuantity "p1" 5; Add "p2"; SetQuantity "p2" 0;
            SetQuantity "p0" (7 # 2); Clear (Some "p3")] two_lines Hc Hops).
Defined.

End CartJsonProps.

(** ** Coupons and checkout *)
Module CheckoutProps.
Import Coupons Orders Payment Fixtures.

(** C1 (code defect): one product at 100.00 bought with the user's active
    10% coupon.  The pre-discount total is 10000 and 90% of it is 9000, but
    the handler ends with 1000, the amount of the discount itself, and
    returns 10 (= 1000 / 100) to the client. *)
Theorem checkout_total_is_the_discount :
  let products := [product_at 100 1] in
  let db := {| coupons := [gift10]; orders := [] |} in
  let coupon := lookup_coupon (Some "GIFTK3J9QZ") "u1" (coupons db) in
  coupon = Some gift10
  /\ pre_discount_total products = 10000
  /\ final_total products coupon = 1000
  /\ final_total products coupon
     <> pre_discount_total products * (100 - discountPercentage gift10) / 100
  /\ fst (createCheckoutSession test_stripe 0 "0.4fzyo82mvyr" "u1" products
            (Some "GIFTK3J9QZ") db)
     = {| status := 200; json := SessionJson "cs_1" (inject_Z 1000 / 100)%Q |}.
Proof.
  cbv zeta. repeat split; try (vm_compute; reflexivity).
  vm_compute. discriminate.
Qed.

(** The example of the specification: two units at 10.00 and one at 5.00
    without a coupon total 2500 minor units, below the threshold, and no
    coupon is awarded. *)
Example checkout_2500_no_award :
  let products := [product_at 10 2; product_at 5 1] in
  let db := {| coupons := []; orders := [] |} in
  pre_discount_total products = 2500
  /\ createCheckoutSession test_stripe 0 "0.4fzyo82mvyr" "u1" products None db
     = ({| status := 200; json := SessionJson "cs_1" (inject_Z 2500 / 100)%Q |},
        db).
Proof. split; reflexivity. Qed.

(** The database after a checkout-session request: the award step ran
    exactly when the session was created and the final total reached the
    threshold. *)
Lemma createCheckoutSession_db stripe now random36 uid products couponCode db :
  let r := createCheckoutSession stripe now random36 uid products
             couponCode db in
  snd r = (if (status (fst r) =? 200)
              && (award_threshold
                  <=? final_total products
                        (lookup_coupon couponCode uid (coupons db)))
           then award uid now random36 db
           else db).
Proof.
  cbv zeta. unfold createCheckoutSession, final_total.
  destruct products as [|p ps]; [reflexivity|].
  destruct (lookup_coupon couponCode uid (coupons db)) as [c|].
  - destruct (createStripeCoupon stripe (discountPercentage c));
      [|reflexivity].
    destruct (sessions_create stripe _); [|reflexivity].
    cbn [fst snd status]. rewrite Z.eqb_refl. reflexivity.
  - destruct (sessions_create stripe _); [|reflexivity].
    cbn [fst snd status]. rewrite Z.eqb_refl. reflexivity.
Qed.



End CheckoutProps.

(** ** The coupon collection *)
Module CouponProps.
Import Coupons Orders Payment.

Lemma length_toUpperCase s :
  String.length (JS.toUpperCase s) = String.length s.
Proof. induction s as [|c s IH]; simpl; [reflexivity|now rewrite IH]. Qed.

Lemma length_substring s : forall i n,
  String.length (String.substring i n s) = Nat.min n (String.length s - i).
Proof.
  induction s as [|c s IH]; intros [|i] [|n]; simpl; try reflexivity.
  - now rewrite IH, Nat.sub_0_r.
  - apply IH.
  - apply IH.
Qed.

Lemma length_random_suffix random36 :
  String.length (random_suffix random36)
  = Nat.min 6 (String.length random36 - 2).
Proof.
  unfold random_suffix, JS.substring.
  rewrite length_toUpperCase, length_substring. reflexivity.
Qed.

(** C5, as the claim states it, fails: for the random string
    [0.4fzyo82mvyr] the code of the new coupon is [GIFT4FZYO8], the prefix
    followed by six characters, not four; and for [0.i] (the rendering of
    0.5) it is [GIFTI], the prefix followed by one character. *)
Lemma coupon_suffix_not_four :
  let c := fst (createNewCoupon "u1" 0 "0.4fzyo82mvyr" []) in
  let c' := fst (createNewCoupon "u1" 0 "0.i" []) in
  code c = "GIFT4FZYO8"
  /\ code c' = "GIFTI"
  /\ ~ (exists suffix,
          code c = String.append gift_prefix suffix
          /\ String.length suffix = 4%nat)
  /\ ~ (exists suffix,
          code c' = String.append gift_prefix suffix
          /\ String.length suffix = 4%nat).
Proof.
  cbv zeta. split; [reflexivity|]. split; [reflexivity|].
  split; intros [suffix [Hc Hl]]; vm_compute in Hc;
    injection Hc as <-; discriminate Hl.
Qed.

(** C5, amended: every coupon created by the award step belongs to the
    user, is active, has discount percentage 10 and an expiration timestamp
    exactly 30 days (2592000000 ms) after the time of award, and its code is
    the fixed prefix [GIFT] followed by the upper-cased characters 3 to 8 of
    the base-36 rendering of a random number: at most 6 characters, and
    exactly 6 when the rendering has at least 8. *)
Theorem new_coupon_fields :
  forall uid now random36 coupons,
    let c := fst (createNewCoupon uid now random36 coupons) in
    discountPercentage c = 10
    /\ expirationDate c = now + 2592000000
    /\ isActive c = true
    /\ userId c = uid
    /\ code c = String.append "GIFT" (random_suffix random36)
    /\ random_suffix random36 = JS.toUpperCase (JS.substring 2 8 random36)
    /\ String.length (random_suffix random36)
       = Nat.min 6 (String.length random36 - 2)
    /\ In c (snd (createNewCoupon uid now random36 coupons)).
Proof.
  intros uid now random36 coupons. cbv zeta. unfold createNewCoupon; simpl.
  repeat split.
  - apply length_random_suffix.
  - apply List.in_or_app. right. left. reflexivity.
Qed.

(** C4, as the claim states it, fails: a coupon awarded at time 0 expires at
    2592000000; one millisecond later it is still active, and [getCoupon]
    delivers it although its expiration date is in the past. *)
Lemma getCoupon_delivers_expired :
  let coupons := snd (createNewCoupon "u1" 0 "0.4fzyo82mvyr" []) in
  let now := 2592000001 in
  exists c,
    getCoupon "u1" coupons
    = {| Coupons.status := 200; Coupons.json := CouponJson (Some c) |}
    /\ isActive c = true
    /\ ~ unexpired now c.
Proof.
  cbv zeta. eexists. split; [reflexivity|]. split; [reflexivity|].
  unfold unexpired. simpl. vm_compute. intros H. apply H. reflexivity.
Qed.

(** C4, amended: [getCoupon] answers 200 with either null, exactly when the
    user has no active coupon, or the first active coupon of the user in
    the collection; the expiration date is not examined, so the coupon
    delivered is active but need not be unexpired. *)
Theorem getCoupon_active_or_null :
  forall uid (coupons : list Coupon),
    exists result,
      getCoupon uid coupons
      = {| Coupons.status := 200; Coupons.json := CouponJson result |}
      /\ result = hd_error (active_coupons uid coupons)
      /\ match result with
         | None => active_coupons uid coupons = []
         | Some c => In c coupons /\ userId c = uid /\ isActive c = true
         end.
Proof.
  intros uid coupons. exists (findOne (active_of_user uid) coupons).
  split; [reflexivity|]. unfold findOne, active_coupons.
  split.
  - induction coupons as [|c l IH]; simpl; [reflexivity|].
    destruct (active_of_user uid c); [reflexivity|exact IH].
  - destruct (find (active_of_user uid) coupons) as [c|] eqn:E.
    + apply List.find_some in E. destruct E as [Hin Hq].
      unfold active_of_user, of_user in Hq.
      apply andb_prop in Hq. destruct Hq as [Hu Ha].
      apply String.eqb_eq in Hu. auto.
    + induction coupons as [|c l IH]; simpl in *; [reflexivity|].
      destruct (active_of_user uid c); [discriminate|now apply IH].
Qed.

End CouponProps.

(** ** One coupon per user *)
Module AwardProps.
Import Coupons Orders Payment Fixtures.

Lemma filter_length_le (f g : Coupon -> bool) (l : list Coupon) :
  (forall c, f c = true -> g c = true) ->
  (length (List.filter f l) <= length (List.filter g l))%nat.
Proof.
  intros Hfg. induction l as [|c l IH]; simpl; [lia|].
  destruct (f c) eqn:Ef.
  - rewrite (Hfg c Ef). simpl. lia.
  - destruct (g c); simpl; lia.
Qed.

Lemma active_le_all uid (l : list Coupon) :
  (length (active_coupons uid l) <= length (coupons_of uid l))%nat.
Proof.
  apply filter_length_le. intros c H.
  unfold active_of_user in H. now apply andb_prop in H.
Qed.

Lemma delete_filter_le (f q : Coupon -> bool) (l : list Coupon) :
  (length (List.filter f (findOneAndDelete q l))
   <= length (List.filter f l))%nat.
Proof.
  induction l as [|c l IH]; simpl; [lia|].
  destruct (q c); simpl.
  - destruct (f c); simpl; lia.
  - destruct (f c); simpl; lia.
Qed.

Lemma delete_own_coupon uid (l : list Coupon) :
  (length (coupons_of uid l) <= 1)%nat ->
  coupons_of uid (findOneAndDelete (of_user uid) l) = [].
Proof.
  unfold coupons_of. induction l as [|c l IH]; simpl; [reflexivity|].
  destruct (of_user uid c) eqn:E; simpl.
  - intros H. destruct (List.filter (of_user uid) l); [reflexivity|].
    simpl in H. lia.
  - rewrite E. exact IH.
Qed.

Lemma update_filter_length uid q (l : list Coupon) :
  length (coupons_of uid (findOneAndUpdate q deactivate l))
  = length (coupons_of uid l).
Proof.
  unfold coupons_of. induction l as [|c l IH]; simpl; [reflexivity|].
  destruct (q c); simpl.
  - change (of_user uid (deactivate c)) with (of_user uid c).
    destruct (of_user uid c); reflexivity.
  - destruct (of_user uid c); simpl; now rewrite IH.
Qed.

Lemma new_coupon_is_active uid now random36 (l : list Coupon) :
  active_of_user uid (fst (createNewCoupon uid now random36 l)) = true.
Proof.
  unfold active_of_user, of_user. simpl. now rewrite String.eqb_refl.
Qed.

(** The award step keeps one coupon per user. *)
Lemma award_keeps_one uid now random36 (l : list Coupon) :
  one_coupon_per_user l ->
  one_coupon_per_user (snd (createNewCoupon uid now random36 l)).
Proof.
  intros H v. unfold createNewCoupon; simpl. unfold coupons_of.
  rewrite List.filter_app, List.length_app. simpl.
  destruct (of_user v _) eqn:E.
  - unfold of_user in E; simpl in E. apply String.eqb_eq in E. subst v.
    fold (coupons_of uid (findOneAndDelete (of_user uid) l)).
    rewrite (delete_own_coupon uid l (H uid)). simpl. lia.
  - simpl. pose proof (delete_filter_le (of_user v) (of_user uid) l).
    specialize (H v). unfold coupons_of in H. lia.
Qed.

(** Deactivating a coupon keeps one coupon per user. *)
Lemma deactivate_keeps_one q (l : list Coupon) :
  one_coupon_per_user l ->
  one_coupon_per_user (findOneAndUpdate q deactivate l).
Proof. intros H v. rewrite update_filter_length. apply H. Qed.

Lemma checkoutSuccess_coupons stripe now orderId sessionId db :
  coupons (snd (checkoutSuccess stripe now orderId sessionId db)) = coupons db
  \/ exists q,
       coupons (snd (checkoutSuccess stripe now orderId sessionId db))
       = findOneAndUpdate q deactivate (coupons db).
Proof.
  unfold checkoutSuccess.
  destruct (sessions_retrieve stripe sessionId) as [session|]; [|now left].
  destruct (String.eqb (payment_status session) "paid"); [|now left].
  destruct (JS.truthy _).
  - right. eexists. destruct (save _ _); reflexivity.
  - left. destruct (save _ _); reflexivity.
Qed.

(** In every reachable database each user has at most one coupon. *)
Lemma reachable_one_coupon db :
  reachable db -> one_coupon_per_user (coupons db).
Proof.
  induction 1 as [|stripe now random36 uid products couponCode db _ IH
                  |stripe now orderId sessionId db _ IH].
  - intros v. simpl. lia.
  - rewrite CheckoutProps.createCheckoutSession_db.
    destruct (_ && _); [|exact IH].
    unfold award; simpl. now apply award_keeps_one.
  - destruct (checkoutSuccess_coupons stripe now orderId sessionId db)
      as [E|[q E]]; rewrite E; [exact IH|].
    now apply deactivate_keeps_one.
Qed.


(** Every order in a reachable database passed the schema validation. *)
Lemma reachable_orders_valid db :
  reachable db -> Forall (fun o => validate o = true) (orders db).
Proof.
  induction 1 as [|stripe now random36 uid products couponCode db _ IH
                  |stripe now orderId sessionId db _ IH].
  - constructor.
  - rewrite CheckoutProps.createCheckoutSession_db.
    destruct (_ && _); exact IH.
  - unfold checkoutSuccess.
    destruct (sessions_retrieve stripe sessionId) as [session|]; [|exact IH].
    destruct (String.eqb (payment_status session) "paid"); [|exact IH].
    unfold save.
    match goal with |- context [validate ?o && ?fresh] =>
      destruct (validate o && fresh) eqn:E; simpl; [|exact IH]
    end.
    apply andb_prop in E. destruct E as [Ev _].
    apply List.Forall_app. split; [exact IH|]. constructor; [exact Ev|].
    constructor.
Qed.



End AwardProps.

(** ** The daily sales series *)
Module AnalyticsProps.
Import Orders Analytics Fixtures.

Lemma day_ms_pos : 0 < day_ms.
Proof. unfold day_ms. lia. Qed.

Lemma utc_day_next t : utc_day (t + day_ms) = utc_day t + 1.
Proof.
  unfold utc_day. replace (t + day_ms) with (t + 1 * day_ms) by ring.
  apply Z.div_add. pose proof day_ms_pos. lia.
Qed.

Lemma days_from_S first n :
  days_from first (S n) = first :: days_from (first + 1) n.
Proof.
  unfold days_from. simpl. f_equal; [lia|].
  rewrite <- List.seq_shift, List.map_map.
  apply List.map_ext. intros k. lia.
Qed.

Lemma length_days_from first n : length (days_from first n) = n.
Proof. unfold days_from. now rewrite List.length_map, List.length_seq. Qed.

(** Without clock changes a step of one local day is 86400000 ms. *)
Lemma setDate_next_fixed tz t :
  fixed_offset tz -> setDate_next tz t = t + day_ms.
Proof.
  intros [k Hk]. unfold setDate_next, next_local_day. cbv zeta.
  destruct (Hk t) as [-> _].
  destruct (Hk (t + k + day_ms)) as [_ ->]. lia.
Qed.

(** In a zone without clock changes the loop produces the day of the start
    date and the days after it, one for each whole day that fits between
    the two dates. *)
Lemma getDatesInRange_days tz currentDate endDate :
  fixed_offset tz ->
  getDatesInRange tz currentDate endDate
  = days_from (utc_day currentDate)
      (Z.to_nat ((endDate - currentDate) / day_ms + 1)).
Proof.
  intros Hfix. funelim (getDatesInRange tz currentDate endDate);
    pose proof day_ms_pos as Hd.
  - match goal with
    | IH : fixed_offset _ -> getDatesInRange _ _ _ = days_from _ _ |- _ =>
        rewrite (IH Hfix)
    end.
    rewrite (setDate_next_fixed tz currentDate Hfix), utc_day_next.
    replace (endDate - (currentDate + day_ms))
      with ((endDate - currentDate) + (-1) * day_ms) by ring.
    rewrite Z.div_add by lia.
    assert (0 <= (endDate - currentDate) / day_ms)
      by (apply Z.div_pos; lia).
    replace (Z.to_nat ((endDate - currentDate) / day_ms + 1))
      with (S (Z.to_nat ((endDate - currentDate) / day_ms + -1 + 1)))
      by lia.
    now rewrite days_from_S.
  - assert ((endDate - currentDate) / day_ms < 0)
      by (apply Z.div_lt_upper_bound; lia).
    replace (Z.to_nat ((endDate - currentDate) / day_ms + 1)) with 0%nat
      by lia.
    reflexivity.
Qed.

Lemma utc_fixed : fixed_offset utc.
Proof. exists 0. intros t. split; reflexivity. Qed.

Lemma series_dates tz startDate endDate orders :
  map date (getDailySalesData tz startDate endDate orders)
  = getDatesInRange tz startDate endDate.
Proof.
  unfold getDailySalesData. rewrite List.map_map. simpl.
  apply List.map_id.
Qed.

(** Whole days between two dates, against the calendar days of the range. *)
Lemma whole_days_same_or_later startDate endDate :
  time_of_day startDate <= time_of_day endDate ->
  (endDate - startDate) / day_ms = utc_day endDate - utc_day startDate.
Proof.
  unfold time_of_day, utc_day. intros H. pose proof day_ms_pos as Hd.
  pose proof (Z.mod_pos_bound startDate day_ms Hd).
  pose proof (Z.mod_pos_bound endDate day_ms Hd).
  symmetry.
  apply (Z.div_unique _ _ _ (endDate mod day_ms - startDate mod day_ms));
    [lia|].
  rewrite (Z.div_mod endDate day_ms) at 1 by lia.
  rewrite (Z.div_mod startDate day_ms) at 1 by lia.
  ring.
Qed.

(** The route's window of seven days on [week_orders], in UTC: eight
    entries, the two orders counted on day 1. *)
Example week_series :
  getDailySalesData utc 36000000 (36000000 + 7 * day_ms) week_orders
  = [{| date := 0; entry_sales := 0; entry_revenue := 0 |};
     {| date := 1; entry_sales := 2; entry_revenue := 25 |};
     {| date := 2; entry_sales := 0; entry_revenue := 0 |};
     {| date := 3; entry_sales := 0; entry_revenue := 0 |};
     {| date := 4; entry_sales := 0; entry_revenue := 0 |};
     {| date := 5; entry_sales := 0; entry_revenue := 0 |};
     {| date := 6; entry_sales := 0; entry_revenue := 0 |};
     {| date := 7; entry_sales := 0; entry_revenue := 0 |}].
Proof. vm_compute. reflexivity. Qed.

(** C8 (code defect): the series is not one entry per calendar day of the
    inclusive range.  In UTC, from 23:00 on day 0 (82800000) to 01:00 on
    day 2 (176400000) the range has the three calendar days 0, 1, 2, but
    the series has two entries, for the days 0 and 1: the day of the end
    date is missing, and with it the order placed on that day within the
    range.  In the zone America/New_York, from 00:30 UTC on 10 March 2024
    (day 19792) to 00:30 UTC on 12 March 2024 (day 19794), the series has
    the day 19792 twice, each time with the order of that day, then the
    day 19793, and no entry for the day 19794. *)
Theorem series_misses_last_day :
  let startDate := 82800000 in
  let endDate := 176400000 in
  let series := getDailySalesData utc startDate endDate [late_order] in
  let startDate' := 1710030600000 in
  let endDate' := 1710203400000 in
  let series' :=
    getDailySalesData eastern_2024 startDate' endDate' [march_order] in
  startDate <= endDate
  /\ calendar_days startDate endDate = [0; 1; 2]
  /\ map date series = [0; 1]
  /\ length series <> length (calendar_days startDate endDate)
  /\ matching_orders startDate endDate 2 [late_order] = [late_order]
  /\ startDate' <= endDate'
  /\ calendar_days startDate' endDate' = [19792; 19793; 19794]
  /\ map date series' = [19792; 19792; 19793]
  /\ map entry_sales series' = [1; 1; 0].
Proof.
  cbv zeta. split; [lia|]. split; [reflexivity|]. split; [reflexivity|].
  split; [vm_compute; discriminate|]. split; [reflexivity|].
  split; [lia|]. split; [reflexivity|]. split; reflexivity.
Qed.

End AnalyticsProps.


(** ** Token refresh *)
Module AuthProps.
Import Auth Fixtures.

(** Reading the cache leaves it as it is. *)
Lemma redis_get_frame key now (redis : Redis) :
  snd (redis_get key now redis) = redis.
Proof. reflexivity. Qed.

(** A value read from the cache is the value of a live entry. *)
Lemma redis_get_some key now (redis : Redis) v :
  fst (redis_get key now redis) = Some v ->
  exists e, redis !! key = Some e /\ value e = v /\ now < expires_at e.
Proof.
  unfold redis_get; simpl. destruct (redis !! key) as [e|]; [|discriminate].
  destruct (now <? expires_at e) eqn:E; [|discriminate].
  intros [= <-]. exists e. repeat split. now apply Z.ltb_lt.
Qed.

(** C9: a refresh request presenting a refresh token that is validly
    signed and unexpired and equal to the token the cache holds for that
    user is answered 200 with a newly issued access token: the response
    sets exactly one cookie, named [accessToken], whose value is the token
    the JWT library signs at the time of the request for that user, with
    the access secret and a lifetime of 15 minutes (http-only, same-site
    strict, secure in production, kept for 900000 ms).  The cache is left
    as it was: the stored refresh token and its expiry are unchanged. *)
Theorem refresh_keeps_stored_token :
  forall (jwt : Jwt) (env : Env) (now : Z) (token userId : string)
         (redis : Redis),
    JS.truthy (Some token) = true ->
    verify jwt token (REFRESH_TOKEN_SECRET env) now = Some userId ->
    fst (redis_get (refresh_token_key userId) now redis) = Some token ->
    let (response, redis') := refreshToken jwt env now (Some token) redis in
    response
    = {| status := 200;
         set_cookies :=
           [{| cookie_name := "accessToken";
               cookie_value :=
                 sign jwt userId (ACCESS_TOKEN_SECRET env) 900 now;
               httpOnly := true;
               secure := String.eqb (NODE_ENV env) "production";
               sameSite := "strict";
               maxAge := 900000 |}];
         json := Message "Token refreshed successfully" |}
    /\ redis' = redis
    /\ stored_refresh_token userId redis' = stored_refresh_token userId redis
    /\ exists e, stored_refresh_token userId redis' = Some e
                 /\ value e = token /\ now < expires_at e.
Proof.
  intros jwt env now token userId redis Htruthy Hverify Hstored.
  unfold refreshToken. rewrite Htruthy.
  change (negb true) with false. cbv iota.
  change (default "" (Some token)) with token.
  rewrite Hverify. unfold bind.
  pose proof (redis_get_frame (refresh_token_key userId) now redis) as Hframe.
  pose proof (redis_get_some (refresh_token_key userId) now redis token
                Hstored) as (e & He & Hv & Hexp).
  destruct (redis_get (refresh_token_key userId) now redis)
    as [storedToken redis'].
  simpl in Hframe, Hstored. subst storedToken redis'.
  rewrite bool_decide_eq_true_2 by reflexivity. simpl.
  repeat split.
  exists e. unfold stored_refresh_token. auto.
Qed.

Lemma refresh_keeps_stored_token_witness :
  let redis :=
    snd (storeRefreshToken "u1" "u1.refresh-secret" 0 ∅) in
  let (response, redis') :=
    refreshToken toy_jwt toy_env 60000 (Some "u1.refresh-secret") redis in
  response
  = {| status := 200;
       set_cookies :=
         [{| cookie_name := "accessToken";
             cookie_value :=
               sign toy_jwt "u1" (ACCESS_TOKEN_SECRET toy_env) 900 60000;
             httpOnly := true;
             secure := String.eqb (NODE_ENV toy_env) "production";
             sameSite := "strict";
             maxAge := 900000 |}];
       json := Message "Token refreshed successfully" |}
  /\ redis' = redis
  /\ stored_refresh_token "u1" redis' = stored_refresh_token "u1" redis
  /\ exists e, stored_refresh_token "u1" redis' = Some e
               /\ value e = "u1.refresh-secret" /\ 60000 < expires_at e.
Proof.
  apply (refresh_keeps_stored_token toy_jwt toy_env 60000
           "u1.refresh-secret" "u1"
           (snd (storeRefreshToken "u1" "u1.refresh-secret" 0 ∅))).
  - reflexivity.
  - reflexivity.
  - vm_compute. reflexivity.
Defined.

End AuthProps.

(** ** More on the cart *)
Module CartMore.
Import Cart.

Lemma has_id_eq p item : has_id p item = true <-> id item = p.
Proof. unfold has_id. apply String.eqb_eq. Qed.

Lemma has_id_other p p' item :
  p' <> p -> has_id p item = true -> has_id p' item = false.
Proof.
  intros Hne H. apply has_id_eq in H. unfold has_id.
  apply String.eqb_neq. congruence.
Qed.

(** Updating the line of one product leaves the lines of the others. *)
Lemma find_update_existing_other p p' f (c : list CartItem) :
  p' <> p ->
  find (has_id p') (update_existing p f c) = find (has_id p') c.
Proof.
  intros Hne. induction c as [|i c IH]; simpl; [reflexivity|].
  destruct (has_id p i) eqn:E; simpl.
  - rewrite (has_id_other p p' i Hne E).
    change (has_id p' {| id := id i; quantity := f (quantity i) |})
      with (has_id p' i).
    now rewrite (has_id_other p p' i Hne E).
  - destruct (has_id p' i); [reflexivity|exact IH].
Qed.

Lemma find_update_existing_same p f (c : list CartItem) item :
  find (has_id p) c = Some item ->
  find (has_id p) (update_existing p f c)
  = Some {| id := id item; quantity := f (quantity item) |}.
Proof.
  induction c as [|i c IH]; simpl; [discriminate|].
  destruct (has_id p i) eqn:E; simpl.
  - intros [= <-].
    change (has_id p {| id := id i; quantity := f (quantity i) |})
      with (has_id p i).
    now rewrite E.
  - rewrite E. exact IH.
Qed.

Lemma find_app_other p p' (c : list CartItem) q :
  p' <> p ->
  find (has_id p') (c ++ [{| id := p; quantity := q |}])
  = find (has_id p') c.
Proof.
  intros Hne. induction c as [|i c IH]; simpl.
  - unfold has_id; simpl.
    destruct (String.eqb_spec p p'); [congruence|reflexivity].
  - destruct (has_id p' i); [reflexivity|exact IH].
Qed.

Lemma find_filter_other p p' (c : list CartItem) :
  p' <> p ->
  find (has_id p') (List.filter (not_id p) c) = find (has_id p') c.
Proof.
  intros Hne. induction c as [|i c IH]; simpl; [reflexivity|].
  unfold not_id at 1. destruct (has_id p i) eqn:E; simpl.
  - rewrite (has_id_other p p' i Hne E). exact IH.
  - destruct (has_id p' i); [reflexivity|exact IH].
Qed.

Lemma update_existing_ids p f (c : list CartItem) :
  map id (update_existing p f c) = map id c.
Proof.
  induction c as [|i c IH]; simpl; [reflexivity|].
  destruct (has_id p i); simpl; [reflexivity|now rewrite IH].
Qed.

Lemma find_none_not_in p (c : list CartItem) :
  find (has_id p) c = None -> ~ In p (map id c).
Proof.
  induction c as [|i c IH]; simpl; [auto|].
  destruct (has_id p i) eqn:E; [discriminate|].
  intros H [Hi|Hc]; [|now apply IH].
  apply has_id_eq in Hi. congruence.
Qed.

Lemma NoDup_filter_ids f (c : list CartItem) :
  List.NoDup (map id c) -> List.NoDup (map id (List.filter f c)).
Proof.
  induction c as [|i c IH]; simpl; intros H; [constructor|].
  inversion H as [|? ? Hni Hnd]; subst.
  destruct (f i); simpl; [|now apply IH].
  constructor; [|now apply IH].
  intros Hin. apply Hni. apply List.in_map_iff in Hin.
  destruct Hin as (x & Hx & Hf). apply List.filter_In in Hf.
  apply List.in_map_iff. exists x. tauto.
Qed.

Lemma NoDup_apply_op op (c : list CartItem) :
  List.NoDup (map id c) -> List.NoDup (map id (apply_op op c)).
Proof.
  intros H. destruct op as [p|p q|p]; simpl.
  - unfold addToCart; simpl. destruct (find (has_id p) c) eqn:E.
    + now rewrite update_existing_ids.
    + rewrite List.map_app. simpl.
      apply List.NoDup_app; [exact H|repeat constructor; auto|].
      intros x Hx [<-|[]]. now apply (find_none_not_in _ _ E).
  - unfold updateQuantity. destruct (find (has_id p) c); [|exact H].
    destruct (q =? 0); simpl.
    + now apply NoDup_filter_ids.
    + now rewrite update_existing_ids.
  - unfold removeAllFromCart; simpl.
    destruct (negb (JS.truthy p)); [constructor|now apply NoDup_filter_ids].
Qed.

(** X1: a cart that starts empty never holds two lines for the same
    product, whatever operations are applied to it. *)
Theorem cart_one_line_per_product :
  forall ops, List.NoDup (map id (run ops [])).
Proof.
  intros ops. unfold run.
  assert (H : forall c : list CartItem,
             List.NoDup (map id c) ->
             List.NoDup (map id (fold_left (fun c op => apply_op op c) ops c))).
  { induction ops as [|op ops IH]; simpl; intros c Hc; [exact Hc|].
    apply IH. now apply NoDup_apply_op. }
  apply H. constructor.
Qed.

(** X2: [addToCart(p)] answers 200 with the new cart, raises the quantity
    the cart holds of [p] by exactly one (from zero when there was no line)
    and leaves the lines of every other product as they were. *)
Theorem add_raises_quantity_by_one :
  forall (c : list CartItem) (p : string),
    let (r, c') := addToCart p c in
    r = {| status := 200; json := Items c' |}
    /\ CartView.quantity_of p c' = CartView.quantity_of p c + 1
    /\ (forall p', p' <> p -> find (has_id p') c' = find (has_id p') c).
Proof.
  intros c p. unfold addToCart; simpl. split; [reflexivity|].
  unfold CartView.quantity_of. destruct (find (has_id p) c) as [item|] eqn:E.
  - split.
    + now rewrite (find_update_existing_same p _ c item E).
    + intros p' Hne. now apply find_update_existing_other.
  - split.
    + rewrite (CartProps.find_app_none p c _ E). simpl.
      rewrite CartProps.has_id_same. reflexivity.
    + intros p' Hne. now apply find_app_other.
Qed.

(** X3: for a product that has a line and a quantity other than zero,
    [updateQuantity(p, q)] answers 200, the cart then holds exactly [q] of
    [p], has as many lines as before, and the lines of every other product
    are as they were. *)
Theorem update_sets_quantity :
  forall (c : list CartItem) (p : string) (q : Z),
    find (has_id p) c <> None ->
    q <> 0 ->
    let (r, c') := updateQuantity p q c in
    r = {| status := 200; json := Items c' |}
    /\ CartView.quantity_of p c' = q
    /\ length c' = length c
    /\ (forall p', p' <> p -> find (has_id p') c' = find (has_id p') c).
Proof.
  intros c p q Hsome Hq. unfold updateQuantity.
  destruct (find (has_id p) c) as [item|] eqn:E; [|congruence].
  apply Z.eqb_neq in Hq. rewrite Hq. simpl.
  split; [reflexivity|]. split; [|split].
  - unfold CartView.quantity_of.
    now rewrite (find_update_existing_same p _ c item E).
  - rewrite <- (List.length_map id), update_existing_ids.
    apply List.length_map.
  - intros p' Hne. now apply find_update_existing_other.
Qed.

Lemma update_sets_quantity_witness :
  let (r, c') :=
    updateQuantity "p1" 7
      [{| id := "p0"; quantity := 3 |}; {| id := "p1"; quantity := 4 |}] in
  r = {| status := 200; json := Items c' |}
  /\ CartView.quantity_of "p1" c' = 7
  /\ length c'
     = length [{| id := "p0"; quantity := 3 |}; {| id := "p1"; quantity := 4 |}]
  /\ (forall p', p' <> "p1" ->
        find (has_id p') c'
        = find (has_id p')
            [{| id := "p0"; quantity := 3 |}; {| id := "p1"; quantity := 4 |}]).
Proof.
  apply (update_sets_quantity
           [{| id := "p0"; quantity := 3 |}; {| id := "p1"; quantity := 4 |}]
           "p1" 7).
  - simpl. discriminate.
  - lia.
Defined.

(** X4: [removeAllFromCart] with a product id answers 200 with a cart that
    has no line for that product and the same lines for every other
    product; without an id (or with an empty one) it empties the cart. *)
Theorem remove_clears_product_or_cart :
  forall (c : list CartItem) (productId : option string),
    let (r, c') := removeAllFromCart productId c in
    r = {| status := 200; json := Items c' |}
    /\ (JS.truthy productId = false -> c' = [])
    /\ (forall p, productId = Some p -> p <> "" ->
          find (has_id p) c' = None
          /\ forall p', p' <> p ->
               find (has_id p') c' = find (has_id p') c).
Proof.
  intros c productId. unfold removeAllFromCart. simpl.
  split; [reflexivity|]. split.
  - intros H. now rewrite H.
  - intros p -> Hp. simpl.
    apply String.eqb_neq in Hp. rewrite Hp. simpl.
    split; [apply CartProps.find_filter_not_id|].
    intros p' Hne. now apply find_filter_other.
Qed.

Lemma remove_clears_product_or_cart_witness :
  (let (r, c') :=
     removeAllFromCart None [{| id := "p0"; quantity := 3 |}] in
   c' = [])
  /\ (let (r, c') :=
        removeAllFromCart (Some "p1")
          [{| id := "p0"; quantity := 3 |}; {| id := "p1"; quantity := 4 |}] in
      find (has_id "p1") c' = None
      /\ forall p', p' <> "p1" ->
           find (has_id p') c'
           = find (has_id p')
               [{| id := "p0"; quantity := 3 |};
                {| id := "p1"; quantity := 4 |}]).
Proof.
  split.
  - pose proof (remove_clears_product_or_cart
                  [{| id := "p0"; quantity := 3 |}] None) as H.
    simpl in H. destruct H as (_ & H & _). apply H. reflexivity.
  - pose proof (remove_clears_product_or_cart
                  [{| id := "p0"; quantity := 3 |};
                   {| id := "p1"; quantity := 4 |}] (Some "p1")) as H.
    cbv beta iota delta [removeAllFromCart] in H.
    destruct H as (_ & _ & H). apply (H "p1"); [reflexivity|discriminate].
Defined.

End CartMore.

(** ** The cart joined with the catalog *)
Module CartViewProps.
Import Cart.

Lemma existsb_find (f : CartItem -> bool) (c : list CartItem) :
  existsb f c = true -> exists item, find f c = Some item.
Proof.
  induction c as [|i c IH]; simpl; [discriminate|].
  destruct (f i); [eauto|exact IH].
Qed.

Lemma map_throwing_in_cart (cart : list CartItem)
    (products : list Catalog.Product) :
  Forall (fun p => CartView.in_cart cart p = true) products ->
  CartView.map_throwing (CartView.with_quantity cart) products
  = Some (map (fun p =>
                 {| CartView.product := p;
                    CartView.quantity :=
                      CartView.quantity_of (Catalog._id p) cart |})
            products).
Proof.
  induction 1 as [|p ps Hp _ IH]; simpl; [reflexivity|].
  unfold CartView.with_quantity at 1, CartView.quantity_of at 1.
  destruct (existsb_find _ _ Hp) as [item ->]. now rewrite IH.
Qed.

(** X5: [getCartProducts] always answers 200, never 500: it returns, in
    catalog order, exactly the catalog products that have a cart line, each
    with the quantity the cart holds of it; a cart line whose product is no
    longer in the catalog is skipped without an error. *)
Theorem cart_products_joined :
  forall (cart : list CartItem) (catalog : list Catalog.Product),
    exists items,
      CartView.getCartProducts cart catalog
      = {| CartView.status := 200; CartView.json := CartView.CartJson items |}
      /\ map CartView.product items
         = List.filter (CartView.in_cart cart) catalog
      /\ Forall (fun item =>
                   In (CartView.product item) catalog
                   /\ find (has_id (Catalog._id (CartView.product item))) cart
                      <> None
                   /\ CartView.quantity item
                      = CartView.quantity_of
                          (Catalog._id (CartView.product item)) cart)
           items.
Proof.
  intros cart catalog.
  exists (map (fun p =>
                 {| CartView.product := p;
                    CartView.quantity :=
                      CartView.quantity_of (Catalog._id p) cart |})
            (List.filter (CartView.in_cart cart) catalog)).
  split; [|split].
  - unfold CartView.getCartProducts.
    rewrite map_throwing_in_cart; [reflexivity|].
    apply List.Forall_forall. intros p Hp.
    now apply List.filter_In in Hp.
  - rewrite List.map_map. simpl. apply List.map_id.
  - apply List.Forall_forall. intros item Hin.
    apply List.in_map_iff in Hin. destruct Hin as (p & <- & Hp).
    apply List.filter_In in Hp. destruct Hp as [Hin Hc]. simpl.
    split; [exact Hin|]. split; [|reflexivity].
    destruct (existsb_find _ _ Hc) as [item ->]. discriminate.
Qed.

End CartViewProps.

(** ** More on coupons *)
Module CouponMore.
Import Coupons.

Lemma find_stronger (f g : Coupon -> bool) (l : list Coupon) c :
  (forall x, g x = true -> f x = true) ->
  find f l = Some c -> g c = true -> find g l = Some c.
Proof.
  intros Hgf. induction l as [|x l IH]; simpl; [discriminate|].
  destruct (f x) eqn:Ef.
  - intros [= ->] Hg. now rewrite Hg.
  - intros Hfind Hg. destruct (g x) eqn:Eg.
    + rewrite (Hgf x Eg) in Ef. discriminate.
    + now apply IH.
Qed.

Lemma active_code_implies_active k uid c :
  active_code_of_user k uid c = true -> active_of_user uid c = true.
Proof.
  unfold active_code_of_user, active_of_user. intros H.
  apply andb_prop in H. destruct H as [H Ha].
  apply andb_prop in H. destruct H as [_ Hu]. now rewrite Hu, Ha.
Qed.

(** X6: [validateCoupon] answers 404 "Coupon not found" for a code that none
    of the caller's own coupons carries, even when other users have a
    coupon with that code. *)
Theorem validate_foreign_code_not_found :
  forall (couponCode uid : string) (now : Z) (coupons : list Coupon),
    (forall c, In c coupons -> code c = couponCode -> userId c <> uid) ->
    validateCoupon couponCode uid now coupons
    = {| status := 404; json := Message "Coupon not found" |}.
Proof.
  intros k uid now coupons Hforeign. unfold validateCoupon, findOne.
  destruct (find (active_code_of_user k uid) coupons) as [c|] eqn:E;
    [|reflexivity].
  apply List.find_some in E. destruct E as [Hin Hq].
  unfold active_code_of_user, of_user in Hq.
  apply andb_prop in Hq. destruct Hq as [Hq _].
  apply andb_prop in Hq. destruct Hq as [Hc Hu].
  apply String.eqb_eq in Hc, Hu. exfalso. now apply (Hforeign c Hin Hc).
Qed.

Lemma validate_foreign_code_not_found_witness :
  validateCoupon "GIFTK3J9QZ" "u2" 1000 [Fixtures.gift10]
  = {| status := 404; json := Message "Coupon not found" |}.
Proof.
  apply (validate_foreign_code_not_found "GIFTK3J9QZ" "u2" 1000
           [Fixtures.gift10]).
  intros c [<-|[]] _. simpl. discriminate.
Defined.

(** X7: [validateCoupon] answers 200 only for a coupon of the caller that
    carries the code, is active and has not expired, and then returns that
    coupon's code and discount percentage. *)
Theorem validate_accepts_own_live_coupon_only :
  forall (couponCode uid : string) (now : Z) (coupons : list Coupon),
    status (validateCoupon couponCode uid now coupons) = 200 ->
    exists c,
      In c coupons /\ code c = couponCode /\ userId c = uid
      /\ isActive c = true /\ unexpired now c
      /\ json (validateCoupon couponCode uid now coupons)
         = Valid "Coupon valid" couponCode (discountPercentage c).
Proof.
  intros k uid now coupons. unfold validateCoupon, findOne.
  destruct (find (active_code_of_user k uid) coupons) as [c|] eqn:E;
    [|discriminate].
  apply List.find_some in E. destruct E as [Hin Hq].
  unfold active_code_of_user, of_user in Hq.
  apply andb_prop in Hq. destruct Hq as [Hq Ha].
  apply andb_prop in Hq. destruct Hq as [Hc Hu].
  apply String.eqb_eq in Hc, Hu.
  destruct (expirationDate c <? now) eqn:Ex; [discriminate|].
  intros _. exists c. apply Z.ltb_ge in Ex. unfold unexpired. simpl.
  rewrite Hc. auto 10.
Qed.

Lemma validate_accepts_own_live_coupon_only_witness :
  exists c,
    In c [Fixtures.gift10] /\ code c = "GIFTK3J9QZ" /\ userId c = "u1"
    /\ isActive c = true /\ unexpired 1000 c
    /\ json (validateCoupon "GIFTK3J9QZ" "u1" 1000 [Fixtures.gift10])
       = Valid "Coupon valid" "GIFTK3J9QZ" (discountPercentage c).
Proof.
  apply (validate_accepts_own_live_coupon_only "GIFTK3J9QZ" "u1" 1000
           [Fixtures.gift10]).
  reflexivity.
Defined.

Lemma validate_of_found uid now (coupons : list Coupon) c :
  find (active_of_user uid) coupons = Some c ->
  validateCoupon (code c) uid now coupons
  = if expirationDate c <? now
    then {| status := 400; json := Message "Coupon expired" |}
    else {| status := 200;
            json := Valid "Coupon valid" (code c) (discountPercentage c) |}.
Proof.
  intros Hfind. unfold validateCoupon, findOne.
  assert (Hc : active_code_of_user (code c) uid c = true).
  { apply List.find_some in Hfind. destruct Hfind as [_ Hq].
    unfold active_code_of_user. unfold active_of_user in Hq.
    apply andb_prop in Hq. destruct Hq as [Hu Ha].
    now rewrite String.eqb_refl, Hu, Ha. }
  rewrite (find_stronger (active_of_user uid)
             (active_code_of_user (code c) uid) coupons c
             (active_code_implies_active (code c) uid) Hfind Hc).
  reflexivity.
Qed.

(** X8: the coupon [getCoupon] delivers to a user validates for that user:
    [validateCoupon] with its code answers 200 with its discount percentage
    while the expiration date has not passed, and 400 "Coupon expired"
    afterwards. *)
Theorem delivered_coupon_validates_until_expiry :
  forall (uid : string) (now : Z) (coupons : list Coupon) (c : Coupon),
    getCoupon uid coupons = {| status := 200; json := CouponJson (Some c) |} ->
    validateCoupon (code c) uid now coupons
    = if expirationDate c <? now
      then {| status := 400; json := Message "Coupon expired" |}
      else {| status := 200;
              json := Valid "Coupon valid" (code c) (discountPercentage c) |}.
Proof.
  intros uid now coupons c Hget. unfold getCoupon, findOne in Hget.
  injection Hget as Hfind. now apply validate_of_found.
Qed.

Lemma delivered_coupon_validates_until_expiry_witness :
  validateCoupon (code Fixtures.gift10) "u1" 1000 [Fixtures.gift10]
  = if expirationDate Fixtures.gift10 <? 1000
    then {| status := 400; json := Message "Coupon expired" |}
    else {| status := 200;
            json := Valid "Coupon valid" (code Fixtures.gift10)
                      (discountPercentage Fixtures.gift10) |}.
Proof.
  apply (delivered_coupon_validates_until_expiry "u1" 1000
           [Fixtures.gift10] Fixtures.gift10).
  reflexivity.
Defined.

End CouponMore.

(** ** More on checkout *)
Module CheckoutMore.
Import Coupons Orders Payment CheckoutTotals.

Lemma gateway_total_split (products : list Product) : forall b c,
  fold_left (fun t item => t + unit_amount item * line_quantity item)
    (map lineItem products) (b + c)
  = fold_left add_line products b
    + fold_left (fun t p => if quantity p =? 0 then t + amount p else t)
        products c.
Proof.
  induction products as [|p ps IH]; intros b c; simpl; [reflexivity|].
  unfold add_line at 2. destruct (quantity p =? 0) eqn:E.
  - apply Z.eqb_eq in E. rewrite E.
    replace (b + c + amount p * 1) with ((b + amount p * 0) + (c + amount p))
      by ring.
    apply IH.
  - replace (b + c + amount p * quantity p)
      with ((b + amount p * quantity p) + c) by ring.
    apply IH.
Qed.

(** X9: before discounts, the line items sent to the gateway add up to the
    local pre-discount total plus one unit amount for every product whose
    quantity is zero: such a line is sent with quantity 1 although the
    local total counts nothing for it. *)
Theorem gateway_total_counts_zero_lines_once :
  forall products : list Product,
    gateway_total (map lineItem products)
    = pre_discount_total products + zero_quantity_amount products
    /\ Forall (fun item => line_quantity item <> 0) (map lineItem products).
Proof.
  intros products. split.
  - unfold gateway_total, pre_discount_total, zero_quantity_amount.
    apply (gateway_total_split products 0 0).
  - apply List.Forall_map, List.Forall_forall. intros p _. simpl.
    destruct (quantity p =? 0) eqn:E; [lia|now apply Z.eqb_neq].
Qed.

Lemma Qle_bool_cents a : 0 <= a -> Qle_bool 0 (inject_Z a / 100) = true.
Proof.
  intros H. apply Qle_bool_iff. unfold Qle. simpl. lia.
Qed.

Lemma valid_order_lines (products : list Product) :
  Forall (fun p => 1 <= quantity p /\ (0 <= price p)%Q) products ->
  forallb valid_line (order_lines products) = true.
Proof.
  induction 1 as [|p ps [Hq Hp] _ IH]; simpl; [reflexivity|].
  rewrite IH. unfold valid_line; simpl.
  apply Z.leb_le in Hq. apply Qle_bool_iff in Hp. now rewrite Hq, Hp.
Qed.

Lemma invalid_order_lines (products : list Product) :
  Exists (fun p => quantity p < 1) products ->
  forallb valid_line (order_lines products) = false.
Proof.
  induction 1 as [p ps Hq|p ps _ IH]; simpl.
  - unfold valid_line at 1; simpl.
    apply Z.leb_gt in Hq. now rewrite Hq.
  - rewrite IH. apply andb_false_r.
Qed.

(** X10: the products of a checkout request come back as the lines of the
    order: when the gateway reports as paid a session that carries the
    metadata [createCheckoutSession] built for the request, every quantity
    being at least 1, every price and the amount charged non-negative and
    the session id new, [checkoutSuccess] answers 200 and appends one order
    of that user, at that time, with one line per requested product (same
    id, quantity and price, same order) and the gateway's amount divided by
    100 as its total. *)
Theorem paid_order_records_request :
  forall stripe now orderId sessionId db session uid couponCode products,
    sessions_retrieve stripe sessionId = Some session ->
    payment_status session = "paid" ->
    session_metadata session = session_metadata_of uid couponCode products ->
    Forall (fun p => 1 <= quantity p /\ (0 <= price p)%Q) products ->
    0 <= amount_total session ->
    session_is_new sessionId (orders db) = true ->
    let (r, db') := checkoutSuccess stripe now orderId sessionId db in
    r = Some {| status := 200;
                json := OrderJson true
                  "Payment succesfully, order created successfully and coupon deactivated if used"
                  orderId |}
    /\ orders db'
       = orders db
         ++ [{| user := uid;
                products := order_lines products;
                totalAmount := (inject_Z (amount_total session) / 100)%Q;
                stripeSessionId := sessionId;
                createdAt := now |}].
Proof.
  intros stripe now orderId sessionId db session uid couponCode products
    Hret Hpaid Hmd Hvalid Htotal Hnew.
  unfold checkoutSuccess. rewrite Hret, Hpaid, Hmd. simpl String.eqb.
  cbv iota. unfold save, validate. cbn [Orders.products Orders.totalAmount
    Orders.stripeSessionId md_products md_userId session_metadata_of].
  rewrite List.map_map.
  change (map _ products) with (order_lines products).
  rewrite (valid_order_lines products Hvalid), (Qle_bool_cents _ Htotal), Hnew.
  simpl. split; reflexivity.
Qed.

Lemma paid_order_records_request_witness :
  let (r, db') :=
    checkoutSuccess Fixtures2.paid_stripe 5000 "o1" "cs_9" Fixtures2.db1 in
  r = Some {| status := 200;
              json := OrderJson true
                "Payment succesfully, order created successfully and coupon deactivated if used"
                "o1" |}
  /\ orders db'
     = orders Fixtures2.db1
       ++ [{| user := "u1";
              products := order_lines [Fixtures.product_at 10 2];
              totalAmount :=
                (inject_Z (amount_total Fixtures2.paid_session) / 100)%Q;
              stripeSessionId := "cs_9";
              createdAt := 5000 |}].
Proof.
  apply (paid_order_records_request Fixtures2.paid_stripe 5000 "o1" "cs_9"
           Fixtures2.db1 Fixtures2.paid_session "u1" (Some "GIFTK3J9QZ")
           [Fixtures.product_at 10 2]).
  - reflexivity.
  - reflexivity.
  - reflexivity.
  - repeat constructor; simpl; try lia. vm_compute. discriminate.
  - vm_compute. discriminate.
  - reflexivity.
Defined.

(** X11: a request with a product of quantity zero is sent to the gateway
    with quantity 1 for that line, but once the session is paid the order
    cannot be recorded: [checkoutSuccess] answers 500 and adds no order,
    because the order schema wants every quantity to be at least 1. *)
Theorem zero_quantity_paid_but_not_recorded :
  forall stripe now orderId sessionId db session uid couponCode products p,
    In p products ->
    quantity p = 0 ->
    sessions_retrieve stripe sessionId = Some session ->
    payment_status session = "paid" ->
    session_metadata session = session_metadata_of uid couponCode products ->
    line_quantity (lineItem p) = 1
    /\ let (r, db') := checkoutSuccess stripe now orderId sessionId db in
       r = Some server_error /\ orders db' = orders db.
Proof.
  intros stripe now orderId sessionId db session uid couponCode products p
    Hin Hq Hret Hpaid Hmd.
  split; [unfold lineItem; simpl; now rewrite Hq|].
  unfold checkoutSuccess. rewrite Hret, Hpaid, Hmd. simpl String.eqb.
  cbv iota. unfold save, validate. cbn [Orders.products Orders.totalAmount
    Orders.stripeSessionId md_products md_userId session_metadata_of].
  rewrite List.map_map.
  change (map _ products) with (order_lines products).
  rewrite invalid_order_lines; [simpl; split; reflexivity|].
  apply List.Exists_exists. exists p. split; [exact Hin|lia].
Qed.

Lemma zero_quantity_paid_but_not_recorded_witness :
  line_quantity (lineItem (Fixtures.product_at 10 0)) = 1
  /\ let (r, db') :=
       checkoutSuccess Fixtures2.zero_stripe 5000 "o1" "cs_3" Fixtures2.db1 in
     r = Some server_error /\ orders db' = orders Fixtures2.db1.
Proof.
  apply (zero_quantity_paid_but_not_recorded Fixtures2.zero_stripe 5000 "o1"
           "cs_3" Fixtures2.db1 Fixtures2.zero_session "u1" None
           [Fixtures.product_at 10 0] (Fixtures.product_at 10 0)).
  - left. reflexivity.
  - reflexivity.
  - reflexivity.
  - reflexivity.
  - reflexivity.
Defined.

End CheckoutMore.

(** ** Orders and coupons over time *)
Module LedgerProps.
Import Coupons Orders Payment.

Lemma session_is_new_iff sessionId (l : list Order) :
  session_is_new sessionId l = true
  <-> ~ In sessionId (map stripeSessionId l).
Proof.
  unfold session_is_new. induction l as [|o l IH]; simpl.
  - tauto.
  - destruct (String.eqb_spec (stripeSessionId o) sessionId) as [E|E]; simpl.
    + split; [discriminate|]. intros H. exfalso. apply H. now left.
    + rewrite IH. tauto.
Qed.

(** What [checkoutSuccess] does to the orders: nothing, or one valid new
    order of a paid session under a session id not used before. *)
Lemma checkoutSuccess_orders stripe now orderId sessionId db :
  let (r, db') := checkoutSuccess stripe now orderId sessionId db in
  (orders db' = orders db /\ (r = None \/ r = Some server_error))
  \/ exists session o,
       sessions_retrieve stripe sessionId = Some session
       /\ payment_status session = "paid"
       /\ orders db' = orders db ++ [o]
       /\ validate o = true
       /\ session_is_new sessionId (orders db) = true
       /\ stripeSessionId o = sessionId
       /\ user o = md_userId (session_metadata session)
       /\ totalAmount o = (inject_Z (amount_total session) / 100)%Q
       /\ exists body, r = Some {| status := 200; json := body |}.
Proof.
  unfold checkoutSuccess.
  destruct (sessions_retrieve stripe sessionId) as [session|] eqn:Hret;
    [|left; auto].
  destruct (String.eqb_spec (payment_status session) "paid") as [Hpaid|Hpaid];
    [|left; auto].
  unfold save.
  match goal with |- context [validate ?o && ?fresh] =>
    destruct (validate o) eqn:Ev; cbn [andb];
    [destruct fresh eqn:Ef|]
  end.
  - right. eexists _, _. cbn [orders]. repeat split; eauto.
  - left. auto.
  - left. auto.
Qed.

Lemma createCheckoutSession_orders stripe now random36 uid products
    couponCode db :
  orders (snd (createCheckoutSession stripe now random36 uid products
                 couponCode db))
  = orders db.
Proof.
  rewrite CheckoutProps.createCheckoutSession_db.
  destruct (_ && _); reflexivity.
Qed.

Lemma reachable_sessions_distinct db :
  reachable db -> List.NoDup (map stripeSessionId (orders db)).
Proof.
  induction 1 as [|stripe now random36 uid products couponCode db _ IH
                  |stripe now orderId sessionId db _ IH].
  - constructor.
  - now rewrite createCheckoutSession_orders.
  - pose proof (checkoutSuccess_orders stripe now orderId sessionId db) as H.
    destruct (checkoutSuccess stripe now orderId sessionId db) as [r db'].
    simpl. destruct H as [[-> _]|(session & o & _ & _ & -> & _ & Hn & Hs & _)];
      [exact IH|].
    rewrite List.map_app. simpl.
    apply List.NoDup_app; [exact IH|repeat constructor; auto|].
    intros x Hx [<-|[]]. rewrite Hs in Hx.
    now apply session_is_new_iff in Hn.
Qed.

(** X12: a payment session is recorded at most once.  In every database
    the handlers produce from the empty one no two orders carry the same
    session id, and a [checkoutSuccess] for a session id that an order
    already carries adds no order and does not answer 200. *)
Theorem session_recorded_once :
  forall db,
    reachable db ->
    List.NoDup (map stripeSessionId (orders db))
    /\ forall stripe now orderId sessionId,
         In sessionId (map stripeSessionId (orders db)) ->
         let (r, db') := checkoutSuccess stripe now orderId sessionId db in
         orders db' = orders db /\ (r = None \/ r = Some server_error).
Proof.
  intros db Hr. split; [now apply reachable_sessions_distinct|].
  intros stripe now orderId sessionId Hin.
  pose proof (checkoutSuccess_orders stripe now orderId sessionId db) as H.
  destruct (checkoutSuccess stripe now orderId sessionId db) as [r db'].
  destruct H as [H|(session & o & _ & _ & _ & _ & Hn & _)]; [exact H|].
  apply session_is_new_iff in Hn. contradiction.
Qed.

Lemma session_recorded_once_witness :
  let db := snd (checkoutSuccess Fixtures2.paid_stripe 5000 "o1" "cs_9"
                   Fixtures2.db1) in
  List.NoDup (map stripeSessionId (orders db))
  /\ forall stripe now orderId sessionId,
       In sessionId (map stripeSessionId (orders db)) ->
       let (r, db') := checkoutSuccess stripe now orderId sessionId db in
       orders db' = orders db /\ (r = None \/ r = Some server_error).
Proof.
  apply (session_recorded_once
           (snd (checkoutSuccess Fixtures2.paid_stripe 5000 "o1" "cs_9"
                   Fixtures2.db1))).
  apply reachable_success. unfold Fixtures2.db1, Fixtures.after_first_checkout.
  apply reachable_checkout. apply reachable_empty.
Defined.

(** X13: [checkoutSuccess] changes the orders only by appending one order
    for a session the gateway reports as paid: the order passes the schema
    validation, carries the session id (not used before), belongs to the
    user named in the session metadata and has the amount the gateway
    charged, divided by 100, as its total; the answer is then 200. *)
Theorem orders_grow_only_when_paid :
  forall stripe now orderId sessionId db,
    let (r, db') := checkoutSuccess stripe now orderId sessionId db in
    orders db' <> orders db ->
    exists session o,
      sessions_retrieve stripe sessionId = Some session
      /\ payment_status session = "paid"
      /\ orders db' = orders db ++ [o]
      /\ validate o = true
      /\ session_is_new sessionId (orders db) = true
      /\ stripeSessionId o = sessionId
      /\ user o = md_userId (session_metadata session)
      /\ totalAmount o = (inject_Z (amount_total session) / 100)%Q
      /\ exists body, r = Some {| status := 200; json := body |}.
Proof.
  intros stripe now orderId sessionId db.
  pose proof (checkoutSuccess_orders stripe now orderId sessionId db) as H.
  destruct (checkoutSuccess stripe now orderId sessionId db) as [r db'].
  intros Hne. destruct H as [[H _]|H]; [contradiction|exact H].
Qed.

Lemma orders_grow_only_when_paid_witness :
  let (r, db') :=
    checkoutSuccess Fixtures2.paid_stripe 5000 "o1" "cs_9" Fixtures2.db1 in
  exists session o,
    sessions_retrieve Fixtures2.paid_stripe "cs_9" = Some session
    /\ payment_status session = "paid"
    /\ orders db' = orders Fixtures2.db1 ++ [o]
    /\ validate o = true
    /\ session_is_new "cs_9" (orders Fixtures2.db1) = true
    /\ stripeSessionId o = "cs_9"
    /\ user o = md_userId (session_metadata session)
    /\ totalAmount o = (inject_Z (amount_total session) / 100)%Q
    /\ exists body, r = Some {| status := 200; json := body |}.
Proof.
  pose proof (orders_grow_only_when_paid Fixtures2.paid_stripe 5000 "o1"
                "cs_9" Fixtures2.db1) as H.
  destruct (checkoutSuccess Fixtures2.paid_stripe 5000 "o1" "cs_9"
              Fixtures2.db1) as [r db'] eqn:E.
  apply H. vm_compute in E. injection E as _ <-. discriminate.
Defined.

(** With at most one coupon per user, deactivating the user's coupon of a
    code leaves no active coupon of that code for the user. *)
Lemma no_active_code_after_deactivate k uid (l : list Coupon) :
  (length (coupons_of uid l) <= 1)%nat ->
  find (active_code_of_user k uid)
    (findOneAndUpdate (code_of_user k uid) deactivate l) = None.
Proof.
  unfold coupons_of. induction l as [|c l IH]; simpl; [reflexivity|].
  intros Hlen. destruct (code_of_user k uid c) eqn:Ec; simpl.
  - unfold active_code_of_user at 1. simpl. rewrite andb_false_r.
    unfold code_of_user in Ec. apply andb_prop in Ec. destruct Ec as [_ Eu].
    rewrite Eu in Hlen. simpl in Hlen.
    assert (Hnone : List.filter (of_user uid) l = [])
      by (destruct (List.filter (of_user uid) l); [reflexivity|simpl in Hlen; lia]).
    clear -Hnone. induction l as [|x l IH]; simpl in *; [reflexivity|].
    destruct (of_user uid x) eqn:Ex; [discriminate|].
    unfold active_code_of_user at 1. rewrite Ex, andb_false_r. simpl.
    now apply IH.
  - assert (Ea : active_code_of_user k uid c = false).
    { unfold active_code_of_user. unfold code_of_user in Ec.
      now rewrite Ec. }
    rewrite Ea. apply IH.
    destruct (of_user uid c); simpl in Hlen; lia.
Qed.

(** X14: a redeemed coupon is not applied again.  In a database the
    handlers produce from the empty one, once [checkoutSuccess] has handled
    a paid session whose metadata names a coupon code and a user, a later
    checkout of that user with that code finds no coupon to apply, whether
    or not the order itself could be saved. *)
Theorem redeemed_coupon_not_applied_again :
  forall db,
    reachable db ->
    forall stripe now orderId sessionId session,
      sessions_retrieve stripe sessionId = Some session ->
      payment_status session = "paid" ->
      md_couponCode (session_metadata session) <> "" ->
      let db' := snd (checkoutSuccess stripe now orderId sessionId db) in
      lookup_coupon (Some (md_couponCode (session_metadata session)))
        (md_userId (session_metadata session)) (coupons db')
      = None.
Proof.
  intros db Hr stripe now orderId sessionId session Hret Hpaid Hcode.
  cbv zeta. unfold checkoutSuccess. rewrite Hret, Hpaid.
  simpl String.eqb. cbv iota.
  assert (Ht : JS.truthy (Some (md_couponCode (session_metadata session)))
               = true).
  { simpl. now apply negb_true_iff, String.eqb_neq. }
  rewrite Ht. unfold lookup_coupon. rewrite Ht. unfold findOne.
  change (default "" (Some ?x)) with x.
  destruct (save _ _); simpl;
    apply no_active_code_after_deactivate;
    apply (AwardProps.reachable_one_coupon db Hr).
Qed.

Lemma redeemed_coupon_not_applied_again_witness :
  let db' := snd (checkoutSuccess Fixtures2.paid_stripe 5000 "o1" "cs_9"
                    Fixtures2.db1) in
  lookup_coupon
    (Some (md_couponCode (session_metadata Fixtures2.paid_session)))
    (md_userId (session_metadata Fixtures2.paid_session)) (coupons db')
  = None.
Proof.
  apply (redeemed_coupon_not_applied_again Fixtures2.db1).
  - unfold Fixtures2.db1, Fixtures.after_first_checkout.
    apply reachable_checkout. apply reachable_empty.
  - reflexivity.
  - reflexivity.
  - simpl. discriminate.
Defined.

Lemma find_hd_filter (f : Coupon -> bool) (l : list Coupon) :
  find f l = hd_error (List.filter f l).
Proof.
  induction l as [|c l IH]; simpl; [reflexivity|].
  destruct (f c); [reflexivity|exact IH].
Qed.

Lemma award_active_coupons db uid now random36 :
  reachable db ->
  active_coupons uid (coupons (award uid now random36 db))
  = [fst (createNewCoupon uid now random36 (coupons db))].
Proof.
  intros Hr. pose proof (AwardProps.reachable_one_coupon db Hr) as Hone.
  unfold award, createNewCoupon; simpl. unfold active_coupons.
  rewrite List.filter_app.
  pose proof (AwardProps.active_le_all uid
                (findOneAndDelete (of_user uid) (coupons db))) as Hle.
  rewrite (AwardProps.delete_own_coupon uid _ (Hone uid)) in Hle.
  simpl in Hle. unfold active_coupons in Hle.
  destruct (List.filter (active_of_user uid)
              (findOneAndDelete (of_user uid) (coupons db)));
    [|simpl in Hle; lia].
  simpl. unfold active_of_user, of_user; simpl.
  now rewrite String.eqb_refl.
Qed.

(** X15: the coupon the award step creates is the one the user is offered:
    in a database the handlers produce from the empty one, after the award
    step [getCoupon] delivers the new coupon, and [validateCoupon] accepts
    its code with a discount of 10 percent at every time up to 30 days
    after the award and answers 400 "Coupon expired" later. *)
Theorem awarded_coupon_offered_for_30_days :
  forall db,
    reachable db ->
    forall uid now random36 t,
      let new := fst (createNewCoupon uid now random36 (coupons db)) in
      let db' := award uid now random36 db in
      getCoupon uid (coupons db')
      = {| Coupons.status := 200; Coupons.json := CouponJson (Some new) |}
      /\ validateCoupon (code new) uid t (coupons db')
         = if now + 2592000000 <? t
           then {| Coupons.status := 400;
                   Coupons.json := Coupons.Message "Coupon expired" |}
           else {| Coupons.status := 200;
                   Coupons.json := Valid "Coupon valid" (code new) 10 |}.
Proof.
  intros db Hr uid now random36 t. cbv zeta.
  assert (Hfind : find (active_of_user uid)
                    (coupons (award uid now random36 db))
                  = Some (fst (createNewCoupon uid now random36 (coupons db)))).
  { rewrite find_hd_filter.
    change (List.filter (active_of_user uid) ?l) with (active_coupons uid l).
    now rewrite award_active_coupons. }
  split.
  - unfold getCoupon, findOne. now rewrite Hfind.
  - rewrite (CouponMore.validate_of_found uid t _ _ Hfind). reflexivity.
Qed.

Lemma awarded_coupon_offered_for_30_days_witness :
  let new := fst (createNewCoupon "u1" 9000 "0.4fzyo82mvyr"
                    (coupons Fixtures2.db1)) in
  let db' := award "u1" 9000 "0.4fzyo82mvyr" Fixtures2.db1 in
  getCoupon "u1" (coupons db')
  = {| Coupons.status := 200; Coupons.json := CouponJson (Some new) |}
  /\ validateCoupon (code new) "u1" 10000 (coupons db')
     = if 9000 + 2592000000 <? 10000
       then {| Coupons.status := 400;
               Coupons.json := Coupons.Message "Coupon expired" |}
       else {| Coupons.status := 200;
               Coupons.json := Valid "Coupon valid" (code new) 10 |}.
Proof.
  apply (awarded_coupon_offered_for_30_days Fixtures2.db1).
  unfold Fixtures2.db1, Fixtures.after_first_checkout.
  apply reachable_checkout. apply reachable_empty.
Defined.

End LedgerProps.

(** ** Sessions: login, refresh, logout *)
Module SessionProps.
Import Auth.


(** X16: [login] answers 200 only when a user with that e-mail exists and
    bcrypt accepts the password against the stored hash; it then stores the
    new refresh token in the cache under the user's key, to expire seven
    days later, and sets the access and refresh cookies.  In every other
    case it sets no cookie and leaves the cache as it was. *)
Theorem login_stores_token_only_on_success :
  forall bcrypt jwt env now email password users (redis : Redis),
    let (r, redis') :=
      Session.login bcrypt jwt env now email password users redis in
    (Session.status r = 200 ->
     exists user hash,
       Users.findOne_email email users = Some user
       /\ Users.password user = Some hash
       /\ Session.compare bcrypt password hash = true
       /\ redis'
          = <[refresh_token_key (Users._id user) :=
                {| value := snd (generateToken jwt env (Users._id user) now);
                   expires_at := now + 604800000 |}]> redis
       /\ Session.set_cookies r
          = Session.setCookies env
              (fst (generateToken jwt env (Users._id user) now))
              (snd (generateToken jwt env (Users._id user) now)))
    /\ (Session.status r <> 200 ->
        redis' = redis /\ Session.set_cookies r = []).
Proof.
  intros bcrypt jwt env now email password users redis.
  unfold Session.login.
  destruct (Users.findOne_email email users) as [user|];
    [|simpl; split; [discriminate|auto]].
  destruct (Users.password user) as [hash|] eqn:Hp;
    [|simpl; split; [discriminate|auto]].
  destruct (Session.compare bcrypt password hash) eqn:Hc;
    [|simpl; split; [discriminate|auto]].
  simpl. split; [|congruence].
  intros _. exists user, hash. repeat split; auto.
Qed.

Lemma login_stores_token_only_on_success_witness :
  exists user hash,
    Users.findOne_email "bob@shop.test" Fixtures2.two_users = Some user
    /\ Users.password user = Some hash
    /\ Session.compare Fixtures2.toy_bcrypt "secret1" hash = true.
Proof.
  pose proof (login_stores_token_only_on_success Fixtures2.toy_bcrypt
                Fixtures.toy_jwt Fixtures.toy_env 0 "bob@shop.test" "secret1"
                Fixtures2.two_users ∅) as H.
  destruct (Session.login Fixtures2.toy_bcrypt Fixtures.toy_jwt
              Fixtures.toy_env 0 "bob@shop.test" "secret1"
              Fixtures2.two_users ∅) as [r redis'] eqn:E.
  destruct H as [H _].
  assert (Hs : Session.status r = 200).
  { unfold Session.login in E. simpl in E. injection E as <- _. reflexivity. }
  destruct (H Hs) as (user & hash & H1 & H2 & H3 & _).
  exists user, hash. auto.
Defined.

(** X17: a refresh token issued by a successful [login] can be used.
    [login] sets the cookie [refreshToken] to the token the JWT library
    signs at the time of the login for the user, with the refresh secret
    and a lifetime of seven days.  For as long as the library verifies that
    token for the user and the seven days of the cache entry have not
    passed, [refreshToken] with that cookie answers 200 with a new access
    token for that user (one cookie, named [accessToken], whose value is
    the token signed at the time of the refresh request for the user, with
    the access secret and a lifetime of 15 minutes) and leaves the cache as
    [login] left it. *)
Theorem login_then_refresh :
  forall bcrypt jwt env issued now email password users (redis : Redis)
         user hash,
    Users.findOne_email email users = Some user ->
    Users.password user = Some hash ->
    Session.compare bcrypt password hash = true ->
    let token :=
      sign jwt (Users._id user) (REFRESH_TOKEN_SECRET env) 604800 issued in
    token <> "" ->
    verify jwt token (REFRESH_TOKEN_SECRET env) now = Some (Users._id user) ->
    now < issued + 604800000 ->
    let response1 :=
      fst (Session.login bcrypt jwt env issued email password users redis) in
    let redis1 :=
      snd (Session.login bcrypt jwt env issued email password users redis) in
    In {| cookie_name := "refreshToken";
          cookie_value := token;
          httpOnly := true;
          secure := String.eqb (NODE_ENV env) "production";
          sameSite := "strict";
          maxAge := 604800000 |}
       (Session.set_cookies response1)
    /\ refreshToken jwt env now (Some token) redis1
       = ({| status := 200;
             set_cookies :=
               [{| cookie_name := "accessToken";
                   cookie_value :=
                     sign jwt (Users._id user) (ACCESS_TOKEN_SECRET env) 900
                       now;
                   httpOnly := true;
                   secure := String.eqb (NODE_ENV env) "production";
                   sameSite := "strict";
                   maxAge := 900000 |}];
             json := Message "Token refreshed successfully" |},
          redis1).
Proof.
  intros bcrypt jwt env issued now email password users redis user hash
    Hfind Hp Hc token Htok Hverify Hnow response1 redis1.
  subst response1 redis1. unfold Session.login. rewrite Hfind, Hp, Hc.
  unfold generateToken.
  change (sign jwt (Users._id user) (REFRESH_TOKEN_SECRET env)
            (7 * 24 * 60 * 60) issued) with token.
  split; [right; left; reflexivity|].
  simpl snd.
  unfold refreshToken.
  assert (Ht : JS.truthy (Some token) = true)
    by (simpl; now apply negb_true_iff, String.eqb_neq).
  rewrite Ht. change (negb true) with false. cbv iota.
  change (default "" (Some token)) with token. rewrite Hverify.
  unfold bind, redis_get, storeRefreshToken, redis_set, ret.
  cbn [fst snd]. rewrite lookup_insert_eq. cbn [value expires_at].
  destruct (now <? _) eqn:Hlt; [|apply Z.ltb_ge in Hlt; lia].
  rewrite bool_decide_eq_true_2 by reflexivity.
  reflexivity.
Qed.

Lemma login_then_refresh_witness :
  let token :=
    sign Fixtures.toy_jwt "u1" (REFRESH_TOKEN_SECRET Fixtures.toy_env)
      604800 0 in
  let response1 :=
    fst (Session.login Fixtures2.toy_bcrypt Fixtures.toy_jwt Fixtures.toy_env
           0 "bob@shop.test" "secret1" Fixtures2.two_users ∅) in
  let redis1 :=
    snd (Session.login Fixtures2.toy_bcrypt Fixtures.toy_jwt Fixtures.toy_env
           0 "bob@shop.test" "secret1" Fixtures2.two_users ∅) in
  In {| cookie_name := "refreshToken";
        cookie_value := token;
        httpOnly := true;
        secure := String.eqb (NODE_ENV Fixtures.toy_env) "production";
        sameSite := "strict";
        maxAge := 604800000 |}
     (Session.set_cookies response1)
  /\ refreshToken Fixtures.toy_jwt Fixtures.toy_env 60000 (Some token) redis1
     = ({| status := 200;
           set_cookies :=
             [{| cookie_name := "accessToken";
                 cookie_value :=
                   sign Fixtures.toy_jwt "u1"
                     (ACCESS_TOKEN_SECRET Fixtures.toy_env) 900 60000;
                 httpOnly := true;
                 secure :=
                   String.eqb (NODE_ENV Fixtures.toy_env) "production";
                 sameSite := "strict";
                 maxAge := 900000 |}];
           json := Message "Token refreshed successfully" |},
        redis1).
Proof.
  apply (login_then_refresh Fixtures2.toy_bcrypt Fixtures.toy_jwt
           Fixtures.toy_env 0 60000 "bob@shop.test" "secret1"
           Fixtures2.two_users ∅ Fixtures2.customer_user "hash:secret1").
  - reflexivity.
  - reflexivity.
  - reflexivity.
  - simpl. discriminate.
  - reflexivity.
  - lia.
Defined.





(** X20: [refreshToken] never writes to the cache, and it answers 200 only
    to a non-empty refresh cookie that the JWT library verifies for some
    user and that equals the value the cache holds, unexpired, under that
    user's key. *)
Theorem refresh_only_for_stored_token :
  forall jwt env now cookie (redis : Redis),
    let (r, redis') := refreshToken jwt env now cookie redis in
    redis' = redis
    /\ (status r = 200 ->
        exists token userId e,
          cookie = Some token /\ token <> ""
          /\ verify jwt token (REFRESH_TOKEN_SECRET env) now = Some userId
          /\ stored_refresh_token userId redis = Some e
          /\ value e = token /\ now < expires_at e).
Proof.
  intros jwt env now cookie redis. unfold refreshToken.
  destruct (JS.truthy cookie) eqn:Ht; simpl;
    [|split; [reflexivity|discriminate]].
  destruct cookie as [token|]; [|discriminate]. simpl in Ht.
  apply negb_true_iff, String.eqb_neq in Ht.
  change (default "" (Some token)) with token.
  destruct (verify jwt token (REFRESH_TOKEN_SECRET env) now) as [userId|]
    eqn:Hv; simpl; [|split; [reflexivity|discriminate]].
  unfold bind, redis_get, ret, stored_refresh_token.
  destruct (redis !! refresh_token_key userId) as [e|] eqn:He.
  - destruct (now <? expires_at e) eqn:Hexp.
    + destruct (bool_decide (Some token = Some (value e))) eqn:Hb; simpl.
      * split; [reflexivity|]. intros _.
        apply bool_decide_eq_true_1 in Hb. injection Hb as Hb.
        exists token, userId, e. apply Z.ltb_lt in Hexp. auto 10.
      * split; [reflexivity|discriminate].
    + rewrite bool_decide_eq_false_2 by discriminate. simpl.
      split; [reflexivity|discriminate].
  - rewrite bool_decide_eq_false_2 by discriminate. simpl.
    split; [reflexivity|discriminate].
Qed.

Lemma refresh_only_for_stored_token_witness :
  exists token userId e,
    Some "u1.refresh-secret" = Some token /\ token <> ""
    /\ verify Fixtures.toy_jwt token
         (REFRESH_TOKEN_SECRET Fixtures.toy_env) 60000 = Some userId
    /\ stored_refresh_token userId
         (snd (storeRefreshToken "u1" "u1.refresh-secret" 0 ∅)) = Some e
    /\ value e = token /\ 60000 < expires_at e.
Proof.
  pose proof (refresh_only_for_stored_token Fixtures.toy_jwt Fixtures.toy_env
                60000 (Some "u1.refresh-secret")
                (snd (storeRefreshToken "u1" "u1.refresh-secret" 0 ∅))) as H.
  destruct (refreshToken Fixtures.toy_jwt Fixtures.toy_env 60000
              (Some "u1.refresh-secret")
              (snd (storeRefreshToken "u1" "u1.refresh-secret" 0 ∅)))
    as [r redis'] eqn:E.
  destruct H as [_ H]. apply H.
  vm_compute in E. injection E as <- _. reflexivity.
Defined.

End SessionProps.

(** ** Route protection *)
Module GateProps.
Import Auth Users Gate.

Lemma findById_id id (users : list User) u :
  findById id users = Some u -> In u users /\ _id u = id.
Proof.
  unfold findById. intros H. apply List.find_some in H.
  destruct H as [Hin Hid]. apply String.eqb_eq in Hid. auto.
Qed.

Lemma protectRoute_cases jwt errors env now cookie (users : list User) :
  match protectRoute jwt errors env now cookie users with
  | Next u =>
      exists token stored,
        cookie = Some token /\ token <> ""
        /\ verify jwt token (ACCESS_TOKEN_SECRET env) now = Some (_id stored)
        /\ In stored users
        /\ u = without_password stored
  | Reject status _ => status = 401
  end.
Proof.
  unfold protectRoute. destruct (JS.truthy cookie) eqn:Ht; simpl;
    [|reflexivity].
  destruct cookie as [token|]; [|discriminate]. simpl in Ht.
  apply negb_true_iff, String.eqb_neq in Ht.
  change (default "" (Some token)) with token.
  destruct (verify jwt token (ACCESS_TOKEN_SECRET env) now) as [userId|]
    eqn:Hv.
  - destruct (findById userId users) as [stored|] eqn:Hf; [|reflexivity].
    apply findById_id in Hf. destruct Hf as [Hin <-].
    exists token, stored. auto.
  - destruct (String.eqb _ _); reflexivity.
Qed.

(** X21: [protectRoute] lets a request through only with a non-empty
    access-token cookie that the JWT library verifies for the id of a stored
    user; the user it attaches to the request is that stored user without
    the password hash.  Every request it does not let through is answered
    with status 401. *)
Theorem protectRoute_admits_verified_users :
  forall jwt errors env now cookie (users : list User),
    match protectRoute jwt errors env now cookie users with
    | Next u =>
        password u = None
        /\ exists token stored,
             cookie = Some token /\ token <> ""
             /\ verify jwt token (ACCESS_TOKEN_SECRET env) now
                = Some (_id stored)
             /\ In stored users
             /\ u = without_password stored
    | Reject status _ => status = 401
    end.
Proof.
  intros jwt errors env now cookie users.
  pose proof (protectRoute_cases jwt errors env now cookie users) as H.
  destruct (protectRoute jwt errors env now cookie users) as [u|s m];
    [|exact H].
  split; [|exact H].
  destruct H as (token & stored & _ & _ & _ & _ & ->). reflexivity.
Qed.

(** X22: the chain [protectRoute, adminRoute] lets through only the users
    [protectRoute] admits whose role is [admin]; an authenticated user with
    another role is answered 401 "Access denied - Admin only", and every
    other rejection is a 401 as well. *)
Theorem admin_chain_admits_admins_only :
  forall jwt errors env now cookie (users : list User),
    match admin_chain jwt errors env now cookie users with
    | Next u =>
        role u = "admin"
        /\ protectRoute jwt errors env now cookie users = Next u
    | Reject status message =>
        status = 401
        /\ forall u,
             protectRoute jwt errors env now cookie users = Next u ->
             role u <> "admin" /\ message = "Access denied - Admin only"
    end.
Proof.
  intros jwt errors env now cookie users. unfold admin_chain.
  pose proof (protectRoute_cases jwt errors env now cookie users) as H.
  destruct (protectRoute jwt errors env now cookie users) as [u|s m]; simpl.
  - destruct (String.eqb_spec (role u) "admin") as [E|E].
    + auto.
    + split; [reflexivity|]. intros u' [= <-]. auto.
  - split; [exact H|]. intros u' Hu. discriminate.
Qed.

End GateProps.

(** ** The daily series counts the orders *)
Module SeriesProps.
Import Orders Analytics SeriesSpec Summary.

Lemma lookup_group_add day o (groups : list DayGroup) :
  lookup_day day (group_add o groups)
  = day_step day (lookup_day day groups) o.
Proof.
  unfold lookup_day, day_step.
  induction groups as [|g rest IH]; simpl.
  - destruct (utc_day (createdAt o) =? day); reflexivity.
  - destruct (_id g =? utc_day (createdAt o)) eqn:Eg; simpl.
    + apply Z.eqb_eq in Eg. rewrite <- Eg.
      destruct (_id g =? day); reflexivity.
    + destruct (_id g =? day) eqn:Ed; [|exact IH].
      apply Z.eqb_eq in Ed. subst day.
      rewrite Z.eqb_sym, Eg. reflexivity.
Qed.

Lemma lookup_group day (l : list Order) : forall acc,
  lookup_day day (fold_left (fun groups o => group_add o groups) l acc)
  = fold_left (day_step day) l (lookup_day day acc).
Proof.
  induction l as [|o l IH]; intros acc; simpl; [reflexivity|].
  now rewrite IH, lookup_group_add.
Qed.

Lemma lookup_sort_insert day g (groups : list DayGroup) :
  lookup_day day (sort_insert g groups)
  = if _id g =? day then Some g else lookup_day day groups.
Proof.
  unfold lookup_day. induction groups as [|h rest IH]; simpl.
  - destruct (_id g =? day); reflexivity.
  - destruct (_id g <=? _id h) eqn:Ele; simpl.
    + reflexivity.
    + destruct (_id h =? day) eqn:Eh.
      * apply Z.eqb_eq in Eh. apply Z.leb_gt in Ele.
        destruct (_id g =? day) eqn:Eg; [|reflexivity].
        apply Z.eqb_eq in Eg. lia.
      * exact IH.
Qed.

(** Sorting does not change which group is found for a day. *)
Lemma lookup_sort day (groups : list DayGroup) :
  lookup_day day (sort groups) = lookup_day day groups.
Proof.
  unfold sort. induction groups as [|g rest IH]; simpl; [reflexivity|].
  rewrite lookup_sort_insert, IH. reflexivity.
Qed.

Lemma revenue_of_snoc (l : list Order) o :
  revenue_of (l ++ [o]) = (revenue_of l + totalAmount o)%Q.
Proof. unfold revenue_of. now rewrite List.fold_left_app. Qed.

(** The group the pipeline holds for a day after the orders [l]: none when
    no order of [l] falls on the day, otherwise their number and amount. *)
Lemma day_steps_count day (l : list Order) :
  match fold_left (day_step day) l None with
  | None => List.filter (on_day day) l = []
  | Some g =>
      sales g = Z.of_nat (length (List.filter (on_day day) l))
      /\ (revenue g == revenue_of (List.filter (on_day day) l))%Q
      /\ List.filter (on_day day) l <> []
  end.
Proof.
  induction l as [|o l IH] using List.rev_ind; simpl; [reflexivity|].
  rewrite List.fold_left_app, List.filter_app. simpl.
  unfold day_step at 1.
  change (utc_day (createdAt o) =? day) with (on_day day o).
  destruct (on_day day o) eqn:E.
  - destruct (fold_left (day_step day) l None) as [g|].
    + destruct IH as (Hs & Hr & _). simpl. repeat split.
      * rewrite List.length_app. simpl. lia.
      * rewrite revenue_of_snoc, Hr. reflexivity.
      * intros H. now apply List.app_eq_nil in H.
    + rewrite IH. simpl. repeat split; [|discriminate].
      unfold revenue_of. simpl. now rewrite Qplus_0_l.
  - rewrite List.app_nil_r. exact IH.
Qed.

Lemma filter_filter (f g : Order -> bool) (l : list Order) :
  List.filter g (List.filter f l) = List.filter (fun o => f o && g o) l.
Proof.
  induction l as [|o l IH]; simpl; [reflexivity|].
  destruct (f o); simpl; [|exact IH].
  destruct (g o); now rewrite IH.
Qed.

(** The entry of the series for a day. *)
Lemma entry_counts startDate endDate orders day :
  let found := lookup_day day (aggregate startDate endDate orders) in
  sales_or_zero found
  = Z.of_nat (length (matching_orders startDate endDate day orders))
  /\ (revenue_or_zero found
      == revenue_of (matching_orders startDate endDate day orders))%Q.
Proof.
  cbv zeta. unfold aggregate, group. rewrite lookup_sort, lookup_group.
  change (lookup_day day []) with (@None DayGroup).
  pose proof (day_steps_count day
                (List.filter (in_range startDate endDate) orders)) as H.
  rewrite filter_filter in H. unfold on_day in H.
  unfold matching_orders.
  destruct (fold_left (day_step day) _ None) as [g|]; simpl.
  - destruct H as (Hs & Hr & _). split.
    + destruct (sales g =? 0) eqn:E; [apply Z.eqb_eq in E|]; lia.
    + destruct (Qeq_bool (revenue g) 0) eqn:E; [|exact Hr].
      apply Qeq_bool_iff in E. now rewrite <- Hr, E.
  - rewrite H. split; reflexivity.
Qed.

(** X23: every entry of the daily series reports exactly the orders it
    stands for: its sales are the number of orders created between the two
    dates on the entry's day, and its revenue is the sum of their
    amounts. *)
Theorem series_entries_count_orders :
  forall tz startDate endDate orders,
    Forall (fun e =>
              entry_sales e
              = Z.of_nat
                  (length (matching_orders startDate endDate (date e) orders))
              /\ (entry_revenue e
                  == revenue_of
                       (matching_orders startDate endDate (date e) orders))%Q)
      (getDailySalesData tz startDate endDate orders).
Proof.
  intros tz startDate endDate orders. unfold getDailySalesData.
  rewrite List.Forall_map. apply List.Forall_forall. intros day _.
  cbn [date entry_sales entry_revenue].
  apply (entry_counts startDate endDate orders day).
Qed.

End SeriesProps.

(** ** The series and the summary add up *)
Module TotalsProps.
Import Orders Analytics SeriesSpec Summary.

Lemma filter_split_length (r a b : Order -> bool) (l : list Order) :
  (forall o, a o = true -> b o = false) ->
  length (List.filter (fun o => r o && (a o || b o)) l)
  = (length (List.filter (fun o => r o && a o) l)
     + length (List.filter (fun o => r o && b o) l))%nat.
Proof.
  intros Hd. induction l as [|o l IH]; simpl; [reflexivity|].
  destruct (r o); simpl; [|exact IH].
  destruct (a o) eqn:Ea; simpl.
  - rewrite (Hd o Ea). simpl. now rewrite IH.
  - destruct (b o); simpl; rewrite IH; lia.
Qed.

Lemma listed_false day days o :
  ~ In day days -> on_day day o = true -> listed days o = false.
Proof.
  unfold on_day, listed. intros Hni Hd. apply Z.eqb_eq in Hd.
  apply not_true_is_false. intros H. apply List.existsb_exists in H.
  destruct H as (d & Hin & Heq). apply Z.eqb_eq in Heq. congruence.
Qed.

(** Over distinct days, the sales of the entries add up to the number of
    matched orders created on one of the days. *)
Lemma series_sales_sum startDate endDate orders (days : list Z) : forall a,
  List.NoDup days ->
  fold_left (fun t e => t + entry_sales e)
    (map (fun date =>
            let foundData :=
              find (fun data => _id data =? date)
                (aggregate startDate endDate orders) in
            {| date := date;
               entry_sales := sales_or_zero foundData;
               entry_revenue := revenue_or_zero foundData |}) days) a
  = a + Z.of_nat
          (length (List.filter
                     (fun o => in_range startDate endDate o && listed days o)
                     orders)).
Proof.
  induction days as [|d ds IH]; intros a Hnd; cbn [map fold_left].
  - replace (List.filter _ orders) with (@nil Order); [simpl; lia|].
    symmetry. induction orders as [|o l IHl]; simpl; [reflexivity|].
    unfold listed. simpl. now rewrite andb_false_r.
  - inversion Hnd as [|? ? Hni Hnd']; subst. rewrite (IH _ Hnd').
    destruct (SeriesProps.entry_counts startDate endDate orders d)
      as [Hs _].
    unfold lookup_day in Hs. cbn [entry_sales]. rewrite Hs.
    pose proof (filter_split_length (in_range startDate endDate) (on_day d)
                  (listed ds) orders (fun o => listed_false d ds o Hni))
      as Hsplit.
    change (fun o => in_range startDate endDate o
                     && (on_day d o || listed ds o))
      with (fun o => in_range startDate endDate o && listed (d :: ds) o)
      in Hsplit.
    rewrite Hsplit. unfold matching_orders, on_day. lia.
Qed.

Lemma days_from_NoDup n : forall first, List.NoDup (days_from first n).
Proof.
  induction n as [|n IH]; intros first.
  - constructor.
  - rewrite AnalyticsProps.days_from_S. constructor; [|apply IH].
    unfold days_from. intros Hin. apply List.in_map_iff in Hin.
    destruct Hin as (k & Hk & _). lia.
Qed.

Lemma in_days_from first n d :
  first <= d < first + Z.of_nat n -> In d (days_from first n).
Proof.
  intros H. unfold days_from. apply List.in_map_iff.
  exists (Z.to_nat (d - first)). split; [lia|].
  apply List.in_seq. lia.
Qed.

Lemma in_range_listed tz startDate endDate o :
  fixed_offset tz ->
  time_of_day startDate <= time_of_day endDate ->
  in_range startDate endDate o = true ->
  listed (getDatesInRange tz startDate endDate) o = true.
Proof.
  intros Hfix Htod Hr. unfold in_range in Hr.
  apply andb_prop in Hr. destruct Hr as [Hs He].
  apply Z.leb_le in Hs, He.
  rewrite (AnalyticsProps.getDatesInRange_days tz _ _ Hfix).
  rewrite (AnalyticsProps.whole_days_same_or_later _ _ Htod).
  unfold listed. apply List.existsb_exists.
  exists (utc_day (createdAt o)). split; [|apply Z.eqb_refl].
  pose proof AnalyticsProps.day_ms_pos as Hd.
  assert (utc_day startDate <= utc_day (createdAt o))
    by (unfold utc_day; apply Z.div_le_mono; lia).
  assert (utc_day (createdAt o) <= utc_day endDate)
    by (unfold utc_day; apply Z.div_le_mono; lia).
  apply in_days_from. lia.
Qed.

Lemma series_sales_between tz startDate endDate orders :
  fixed_offset tz ->
  time_of_day startDate <= time_of_day endDate ->
  series_sales (getDailySalesData tz startDate endDate orders)
  = Z.of_nat (length (orders_between startDate endDate orders)).
Proof.
  intros Hfix Htod. unfold series_sales, getDailySalesData. cbv zeta.
  rewrite series_sales_sum.
  - rewrite Z.add_0_l. f_equal. f_equal. unfold orders_between.
    apply List.filter_ext_in. intros o _.
    destruct (in_range startDate endDate o) eqn:E; [|reflexivity].
    simpl. now apply in_range_listed.
  - rewrite (AnalyticsProps.getDatesInRange_days tz _ _ Hfix).
    apply days_from_NoDup.
Qed.

(** X24: where the server's time zone has no clock changes (its offset
    from UTC is the same at every time), no sale is lost or counted twice:
    when the time of day of the start date is not later than that of the
    end date, the sales of the entries of the daily series add up to the
    number of orders created between the two dates.  (Across a clock
    change the loop can list a day twice.) *)
Theorem series_sales_add_up :
  forall tz startDate endDate orders,
    fixed_offset tz ->
    time_of_day startDate <= time_of_day endDate ->
    series_sales (getDailySalesData tz startDate endDate orders)
    = Z.of_nat (length (orders_between startDate endDate orders)).
Proof. exact series_sales_between. Qed.

Lemma series_sales_add_up_witness :
  fixed_offset utc
  /\ time_of_day 36000000 <= time_of_day (36000000 + 7 * day_ms)
  /\ series_sales
       (getDailySalesData utc 36000000 (36000000 + 7 * day_ms)
          Fixtures.week_orders)
     = Z.of_nat
         (length (orders_between 36000000 (36000000 + 7 * day_ms)
                    Fixtures.week_orders)).
Proof.
  split; [exists 0; intros t; split; reflexivity|].
  split; [vm_compute; discriminate|].
  apply (series_sales_add_up utc 36000000 (36000000 + 7 * day_ms)
           Fixtures.week_orders).
  - exists 0. intros t. split; reflexivity.
  - vm_compute. discriminate.
Defined.

Lemma week_window now :
  utc_day (now - seven_days) = utc_day now - 7
  /\ time_of_day (now - seven_days) = time_of_day now
  /\ (now - (now - seven_days)) / day_ms = 7.
Proof.
  pose proof AnalyticsProps.day_ms_pos as Hd.
  assert (E : now - seven_days = now + (-7) * day_ms)
    by (unfold seven_days, day_ms; lia).
  unfold utc_day, time_of_day. rewrite E. repeat split.
  - rewrite Z.div_add by lia. lia.
  - apply Z.mod_add. lia.
  - replace (now - (now + -7 * day_ms)) with (0 + 7 * day_ms) by ring.
    rewrite Z.div_add by lia. reflexivity.
Qed.

(** X25: what [GET /analytics] shows where the server's time zone has no
    clock changes (its offset from UTC is the same at every time).  A
    request the gate rejects gets the gate's answer and no data.  A request
    it lets through is answered 200 with the numbers of users and products,
    the number of all orders and the sum of their amounts, and a daily
    series of exactly eight entries, for the UTC day seven days before the
    request up to the UTC day of the request, whose sales add up to the
    number of orders created in the seven days (to the millisecond) before
    the request. *)
Theorem analytics_route_shows_last_week :
  forall tz gate now totalUsers totalProducts orders,
    fixed_offset tz ->
    match gate with
    | Gate.Reject status message =>
        analytics_route tz gate now totalUsers totalProducts orders
        = {| status := status; json := Message message |}
    | Gate.Next _ =>
        exists series,
          analytics_route tz gate now totalUsers totalProducts orders
          = {| status := 200;
               json := AnalyticsJson
                         {| users := totalUsers;
                            products := totalProducts;
                            totalSales := Z.of_nat (length orders);
                            totalRevenue := revenue_of orders |}
                         series |}
          /\ map date series = days_from (utc_day now - 7) 8
          /\ series_sales series
             = Z.of_nat
                 (length (orders_between (now - 604800000) now orders))
    end.
Proof.
  intros tz gate now totalUsers totalProducts orders Hfix.
  destruct gate as [u|s m]; [|reflexivity].
  exists (getDailySalesData tz (now - seven_days) now orders).
  destruct (week_window now) as (Hday & Htod & Hwhole).
  split; [|split].
  - unfold analytics_route. cbv zeta. f_equal. f_equal.
    unfold getAnalyticsData, salesData, revenue_of.
    destruct orders; reflexivity.
  - rewrite AnalyticsProps.series_dates,
      (AnalyticsProps.getDatesInRange_days tz _ _ Hfix), Hday, Hwhole.
    reflexivity.
  - change 604800000 with seven_days.
    apply series_sales_between; [exact Hfix|lia].
Qed.

Lemma analytics_route_shows_last_week_witness :
  fixed_offset utc
  /\ exists series,
       analytics_route utc (Gate.Next Fixtures2.admin_user) 640800000 2 3
         Fixtures.week_orders
       = {| status := 200;
            json := AnalyticsJson
                      {| users := 2;
                         products := 3;
                         totalSales := 2;
                         totalRevenue := revenue_of Fixtures.week_orders |}
                      series |}
       /\ map date series = [0; 1; 2; 3; 4; 5; 6; 7]
       /\ series_sales series = 2.
Proof.
  split; [exists 0; intros t; split; reflexivity|].
  apply (analytics_route_shows_last_week utc (Gate.Next Fixtures2.admin_user)
           640800000 2 3 Fixtures.week_orders).
  exists 0. intros t. split; reflexivity.
Defined.

End TotalsProps.

(** ** The catalog and its featured cache *)
Module CatalogProps.
Import Catalog.

Lemma toggle_toggle p : toggle (toggle p) = p.
Proof. destruct p. unfold toggle. simpl. now rewrite negb_involutive. Qed.

Lemma has_id_toggle id p : has_id id (toggle p) = has_id id p.
Proof. reflexivity. Qed.

Lemma findById_save_first id f (l : list Product) p :
  (forall x, has_id id (f x) = has_id id x) ->
  findById id l = Some p ->
  findById id (save_first id f l) = Some (f p).
Proof.
  intros Hf. unfold findById. induction l as [|x l IH]; simpl; [discriminate|].
  destruct (has_id id x) eqn:E; simpl.
  - intros [= ->]. now rewrite Hf, E.
  - rewrite E. exact IH.
Qed.

Lemma findById_save_first_other id id' f (l : list Product) :
  (forall x, _id (f x) = _id x) ->
  id' <> id ->
  findById id' (save_first id f l) = findById id' l.
Proof.
  intros Hf Hne. unfold findById.
  induction l as [|x l IH]; simpl; [reflexivity|].
  destruct (has_id id x) eqn:E; simpl.
  - unfold has_id in *. rewrite Hf. apply String.eqb_eq in E.
    destruct (String.eqb_spec (_id x) id'); [congruence|reflexivity].
  - destruct (has_id id' x); [reflexivity|exact IH].
Qed.

Lemma save_first_twice id (l : list Product) :
  save_first id toggle (save_first id toggle l) = l.
Proof.
  induction l as [|x l IH]; simpl; [reflexivity|].
  destruct (has_id id x) eqn:E; simpl.
  - rewrite has_id_toggle, E. now rewrite toggle_toggle.
  - rewrite E. now rewrite IH.
Qed.

(** X26: a successful [toggleFeaturedProduct] answers 200 with the product
    as changed, flips the featured flag of that product and of no other,
    and leaves the cache holding exactly the featured products of the
    collection, so that [getFeaturedProducts] then serves the products that
    are featured now. *)
Theorem toggle_refreshes_featured_cache :
  forall (id : string) (st : State) (p : Product),
    findById id (products st) = Some p ->
    let (r, st') := toggleFeaturedProduct id st in
    r = {| status := 200; json := ProductJson (toggle p) |}
    /\ findById id (products st') = Some (toggle p)
    /\ (forall id', id' <> id ->
          findById id' (products st') = findById id' (products st))
    /\ featured_cache st' = Some (featured (products st'))
    /\ getFeaturedProducts st'
       = ({| status := 200; json := ProductsJson (featured (products st')) |},
          st').
Proof.
  intros id st p Hfind. unfold toggleFeaturedProduct. rewrite Hfind.
  unfold updateFeaturedProductsCache. cbn [products featured_cache].
  split; [reflexivity|]. split; [|split; [|split]].
  - now apply findById_save_first.
  - intros id' Hne. now apply findById_save_first_other.
  - reflexivity.
  - reflexivity.
Qed.

Lemma toggle_refreshes_featured_cache_witness :
  let (r, st') := toggleFeaturedProduct "p2" Fixtures2.cold_catalog in
  r = {| status := 200; json := ProductJson (toggle Fixtures2.jeans) |}
  /\ findById "p2" (products st') = Some (toggle Fixtures2.jeans)
  /\ (forall id', id' <> "p2" ->
        findById id' (products st')
        = findById id' (products Fixtures2.cold_catalog))
  /\ featured_cache st' = Some (featured (products st'))
  /\ getFeaturedProducts st'
     = ({| status := 200; json := ProductsJson (featured (products st')) |},
        st').
Proof.
  apply (toggle_refreshes_featured_cache "p2" Fixtures2.cold_catalog
           Fixtures2.jeans).
  reflexivity.
Defined.

(** X27: toggling the same product twice restores the collection, and the
    cache then lists the featured products of the restored collection. *)
Theorem toggle_twice_restores :
  forall (id : string) (st : State) (p : Product),
    findById id (products st) = Some p ->
    let st2 :=
      snd (toggleFeaturedProduct id (snd (toggleFeaturedProduct id st))) in
    products st2 = products st
    /\ featured_cache st2 = Some (featured (products st)).
Proof.
  intros id st p Hfind. cbv zeta.
  assert (H1 : snd (toggleFeaturedProduct id st)
               = {| products := save_first id toggle (products st);
                    featured_cache :=
                      Some (featured (save_first id toggle (products st))) |})
    by (unfold toggleFeaturedProduct; now rewrite Hfind).
  rewrite H1. unfold toggleFeaturedProduct. cbn [products featured_cache].
  rewrite (findById_save_first id toggle _ p (has_id_toggle id) Hfind).
  unfold updateFeaturedProductsCache. cbn [snd products featured_cache].
  rewrite save_first_twice. split; reflexivity.
Qed.

Lemma toggle_twice_restores_witness :
  let st2 :=
    snd (toggleFeaturedProduct "p1"
           (snd (toggleFeaturedProduct "p1" Fixtures2.cold_catalog))) in
  products st2 = products Fixtures2.cold_catalog
  /\ featured_cache st2
     = Some (featured (products Fixtures2.cold_catalog)).
Proof.
  apply (toggle_twice_restores "p1" Fixtures2.cold_catalog Fixtures2.jacket).
  reflexivity.
Defined.

Lemma findById_in id (l : list Product) p :
  findById id l = Some p -> In p l /\ _id p = id.
Proof.
  unfold findById. intros H. apply List.find_some in H.
  destruct H as [Hin Hid]. apply String.eqb_eq in Hid. auto.
Qed.

Lemma findById_deleted id (l : list Product) :
  List.NoDup (map _id l) ->
  findById id (findByIdAndDelete id l) = None.
Proof.
  unfold findById. induction l as [|x l IH]; simpl; [reflexivity|].
  intros H. inversion H as [|? ? Hni Hnd]; subst.
  destruct (has_id id x) eqn:E; simpl.
  - apply String.eqb_eq in E. subst id.
    destruct (find (has_id (_id x)) l) as [y|] eqn:Ef; [|reflexivity].
    apply List.find_some in Ef. destruct Ef as [Hin Hy].
    apply String.eqb_eq in Hy. exfalso. apply Hni.
    apply List.in_map_iff. eauto.
  - rewrite E. now apply IH.
Qed.

Lemma findById_delete_other id id' (l : list Product) :
  id' <> id ->
  findById id' (findByIdAndDelete id l) = findById id' l.
Proof.
  intros Hne. unfold findById.
  induction l as [|x l IH]; simpl; [reflexivity|].
  destruct (has_id id x) eqn:E; simpl.
  - unfold has_id in *. apply String.eqb_eq in E.
    destruct (String.eqb_spec (_id x) id'); [congruence|reflexivity].
  - destruct (has_id id' x); [reflexivity|exact IH].
Qed.

(** X28: [deleteProduct] does not refresh the featured cache.  With ids
    unique in the collection it removes the product and no other, and
    answers 200; but when the featured list was read (and so cached) before
    a featured product is deleted, [getFeaturedProducts] keeps serving the
    deleted product. *)
Theorem deleted_product_stays_in_featured_cache :
  forall (id : string) (st : State) (p : Product),
    List.NoDup (map _id (products st)) ->
    featured_cache st = None ->
    findById id (products st) = Some p ->
    isFeatured p = true ->
    let st1 := snd (getFeaturedProducts st) in
    let '(r, _, st2) := deleteProduct id st1 in
    r = {| status := 200; json := Message "Product deleted successfully" |}
    /\ findById id (products st2) = None
    /\ (forall id', id' <> id ->
          findById id' (products st2) = findById id' (products st))
    /\ exists served,
         getFeaturedProducts st2
         = ({| status := 200; json := ProductsJson served |}, st2)
         /\ In p served.
Proof.
  intros id st p Hnd Hcold Hfind Hfeat. cbv zeta.
  unfold getFeaturedProducts at 1. rewrite Hcold. cbn [snd].
  unfold deleteProduct. cbn [products featured_cache]. rewrite Hfind.
  split; [reflexivity|]. split; [|split].
  - now apply findById_deleted.
  - intros id' Hne. now apply findById_delete_other.
  - exists (featured (products st)). split; [reflexivity|].
    apply List.filter_In. apply findById_in in Hfind. tauto.
Qed.

Lemma deleted_product_stays_in_featured_cache_witness :
  let st1 := snd (getFeaturedProducts Fixtures2.cold_catalog) in
  let '(r, _, st2) := deleteProduct "p1" st1 in
  r = {| status := 200; json := Message "Product deleted successfully" |}
  /\ findById "p1" (products st2) = None
  /\ (forall id', id' <> "p1" ->
        findById id' (products st2)
        = findById id' (products Fixtures2.cold_catalog))
  /\ exists served,
       getFeaturedProducts st2
       = ({| status := 200; json := ProductsJson served |}, st2)
       /\ In Fixtures2.jacket served.
Proof.
  apply (deleted_product_stays_in_featured_cache "p1" Fixtures2.cold_catalog
           Fixtures2.jacket).
  - repeat constructor; simpl; intuition discriminate.
  - reflexivity.
  - reflexivity.
  - reflexivity.
Defined.

Lemma split_nonempty c s : split c s <> [].
Proof.
  destruct s as [|a s]; simpl; [discriminate|].
  destruct (Ascii.eqb a c); [discriminate|].
  destruct (split c s); discriminate.
Qed.

Lemma split_app_sep c (a b : string) :
  split c (String.append a (String c b)) = split c a ++ split c b.
Proof.
  induction a as [|x a IH]; simpl.
  - now rewrite Ascii.eqb_refl.
  - destruct (Ascii.eqb x c); [now rewrite IH|].
    rewrite IH. pose proof (split_nonempty c a) as Hne.
    destruct (split c a); [congruence|reflexivity].
Qed.

Lemma split_without c s : contains c s = false -> split c s = [s].
Proof.
  induction s as [|a s IH]; simpl; [reflexivity|].
  intros H. apply orb_false_elim in H. destruct H as [Ha Hs].
  now rewrite Ha, (IH Hs).
Qed.

Lemma contains_app c (a b : string) :
  contains c (String.append a b) = contains c a || contains c b.
Proof.
  induction a as [|x a IH]; simpl; [reflexivity|].
  now rewrite IH, orb_assoc.
Qed.

Lemma last_app_nonempty (l l' : list string) d :
  l' <> [] -> List.last (l ++ l') d = List.last l' d.
Proof.
  intros Hne. induction l as [|x l IH]; simpl; [reflexivity|].
  destruct (l ++ l') eqn:E; [|exact IH].
  apply List.app_eq_nil in E. tauto.
Qed.

Lemma publicId_of_url (dir name ext : string) :
  contains "/" name = false ->
  contains "." name = false ->
  contains "/" ext = false ->
  publicId
    (String.append dir
       (String "/" (String.append name (String "." ext))))
  = name.
Proof.
  intros Hn Hd He. unfold publicId.
  rewrite split_app_sep, last_app_nonempty by apply split_nonempty.
  rewrite (split_without "/"); [|rewrite contains_app; simpl; now rewrite Hn, He].
  simpl List.last. rewrite split_app_sep, (split_without "." name Hd).
  reflexivity.
Qed.

(** X29: for a product whose image address ends in [/name.ext], where
    [name] has neither a slash nor a dot and [ext] has no slash,
    [deleteProduct] asks the image store to destroy exactly
    [products/name], whatever comes before the last slash. *)
Theorem delete_destroys_image_by_name :
  forall (id : string) (st : State) (p : Product) (dir name ext : string),
    findById id (products st) = Some p ->
    image p
    = String.append dir (String "/" (String.append name (String "." ext))) ->
    contains "/" name = false ->
    contains "." name = false ->
    contains "/" ext = false ->
    snd (fst (deleteProduct id st)) = [String.append "products/" name].
Proof.
  intros id st p dir name ext Hfind Himg Hn Hd He.
  unfold deleteProduct. rewrite Hfind. cbn [fst snd].
  rewrite Himg, publicId_of_url by assumption.
  destruct dir; reflexivity.
Qed.

Lemma delete_destroys_image_by_name_witness :
  snd (fst (deleteProduct "p1" Fixtures2.cold_catalog))
  = [String.append "products/" "abc123"].
Proof.
  apply (delete_destroys_image_by_name "p1" Fixtures2.cold_catalog
           Fixtures2.jacket
           "https://res.cloudinary.com/demo/image/upload/v1/products"
           "abc123" "png").
  - reflexivity.
  - reflexivity.
  - reflexivity.
  - reflexivity.
  - reflexivity.
Defined.

End CatalogProps.

(** ** The carousel *)
Module CarouselProps.
Import Carousel.

(** What holds of the carousel between resizes: the page size is fixed,
    the index is a multiple of it and not negative, and the index is below
    the number of products unless it is zero. *)
Lemma click_keeps_position length k (s : State) (e : Event) :
  0 < k ->
  is_click e ->
  itemsPerPage s = k /\ 0 <= currentIndex s
  /\ currentIndex s mod k = 0
  /\ (currentIndex s = 0 \/ currentIndex s < length) ->
  let s' := handle length s e in
  itemsPerPage s' = k /\ 0 <= currentIndex s'
  /\ currentIndex s' mod k = 0
  /\ (currentIndex s' = 0 \/ currentIndex s' < length).
Proof.
  intros Hk Hclick (Hp & H0 & Hm & Hb). cbv zeta.
  destruct e as [| |w]; simpl in *; [| |contradiction].
  - unfold isEndDisabled. rewrite Hp.
    destruct (length - k <=? currentIndex s) eqn:E; [auto|].
    apply Z.leb_gt in E. unfold nextSlide; simpl. rewrite Hp.
    repeat split; [lia| |right; lia].
    rewrite <- (Z.mul_1_l k) at 1. now rewrite Z.mod_add by lia.
  - unfold isStartDisabled.
    destruct (currentIndex s =? 0) eqn:E; [auto|].
    apply Z.eqb_neq in E. unfold prevSlide; simpl. rewrite Hp.
    assert (Hge : k <= currentIndex s).
    { apply Z.mod_divide in Hm; [|lia]. destruct Hm as [q Hq].
      assert (0 < q) by nia. nia. }
    repeat split; [lia| |destruct Hb; [lia|right; lia]].
    replace (currentIndex s - k) with (currentIndex s + (-1) * k) by ring.
    now rewrite Z.mod_add by lia.
Qed.

(** X30: as long as the window is not resized again, the carousel stays in
    place.  From its state after mounting in a window of any width, any
    sequence of clicks on the two buttons (a disabled button doing nothing)
    leaves the page size between 1 and 4 and unchanged, and the index a
    non-negative multiple of the page size that is zero or below the
    number of products. *)
Theorem carousel_stays_in_range :
  forall (innerWidth length : Z) (events : list Event),
    Forall is_click events ->
    let mounted := handleResize innerWidth initial in
    let s := fold_left (handle length) events mounted in
    itemsPerPage s = itemsPerPage mounted
    /\ 1 <= itemsPerPage s <= 4
    /\ 0 <= currentIndex s
    /\ currentIndex s mod itemsPerPage s = 0
    /\ (currentIndex s = 0 \/ currentIndex s < length).
Proof.
  intros w length events Hclicks. cbv zeta.
  set (mounted := handleResize w initial).
  assert (Hk : 1 <= itemsPerPage mounted <= 4).
  { unfold mounted, handleResize; simpl.
    destruct (w <? 640); [lia|]. destruct (w <? 1024); [lia|].
    destruct (w <? 1280); lia. }
  assert (H : forall s,
             itemsPerPage s = itemsPerPage mounted /\ 0 <= currentIndex s
             /\ currentIndex s mod itemsPerPage mounted = 0
             /\ (currentIndex s = 0 \/ currentIndex s < length) ->
             let s' := fold_left (handle length) events s in
             itemsPerPage s' = itemsPerPage mounted /\ 0 <= currentIndex s'
             /\ currentIndex s' mod itemsPerPage mounted = 0
             /\ (currentIndex s' = 0 \/ currentIndex s' < length)).
  { induction Hclicks as [|e es He _ IH]; intros s Hs; simpl; [exact Hs|].
    apply IH. apply click_keeps_position; [lia|exact He|exact Hs]. }
  destruct (H mounted) as (Hp & H0 & Hm & Hb).
  { split; [reflexivity|]. split; [simpl; lia|].
    split; [reflexivity|left; reflexivity]. }
  rewrite Hp. auto.
Qed.

Lemma carousel_stays_in_range_witness :
  let mounted := handleResize 800 initial in
  let s := fold_left (handle 5)
             [ClickNext; ClickNext; ClickNext; ClickPrev; ClickPrev; ClickPrev]
             mounted in
  itemsPerPage s = itemsPerPage mounted
  /\ 1 <= itemsPerPage s <= 4
  /\ 0 <= currentIndex s
  /\ currentIndex s mod itemsPerPage s = 0
  /\ (currentIndex s = 0 \/ currentIndex s < 5).
Proof.
  apply (carousel_stays_in_range 800 5
           [ClickNext; ClickNext; ClickNext; ClickPrev; ClickPrev; ClickPrev]).
  repeat constructor.
Defined.

End CarouselProps.
